(** * IDArling core: hook lifecycle, persisted identity and session protocol

    A shallow embedding of [idarling/core/core.py] (class [Core]) and of the
    event translation hooks of [plugin/idaconnect/core.py] (classes [Hooks],
    [IDPHooks], [IDBHooks]), followed by the properties established about them.

    Python objects are mutated in place and an exception leaves every earlier
    mutation visible, so methods are modelled in a state monad over the whole
    plugin world whose outcome is either a returned value or a raised
    exception; the world after a raise is the world at the raise. *)

From Stdlib Require Import ZArith List String Ascii Bool Lia.
From Stdlib Require Import Decimal DecimalString DecimalZ.
From stdpp Require Import gmap strings.

Import ListNotations.
Local Open Scope Z_scope.

(** ** Python builtins used by the core *)

Module Py.

(** The exceptions the modelled code can raise. *)
Inductive PyExc : Type :=
| AssertionError
| TypeError
| ValueError
| AttributeError.

(** A value the identity fields hold: [None] or a [str]. *)
Definition PyStr : Type := option string.

(** Truth value of [None] / [str]: [None] and the empty string are falsy. *)
Definition truthy (v : PyStr) : bool :=
  match v with
  | None => false
  | Some s => negb (String.eqb s "")
  end.

(** [v or None]. *)
Definition or_None (v : PyStr) : PyStr :=
  if truthy v then v else None.

(** [v or default] with a string default. *)
Definition or_str (v : PyStr) (default : string) : string :=
  match v with
  | Some s => if String.eqb s "" then default else s
  | None => default
  end.

(** [sub in s] on two strings: [sub] occurs in [s] as a substring. *)
Fixpoint str_in (sub s : string) : bool :=
  String.prefix sub s
  || match s with
     | EmptyString => false
     | String _ s' => str_in sub s'
     end.

(** [sub not in v]: a [TypeError] when [v] is [None] (not iterable). *)
Definition not_in (sub : string) (v : PyStr) : PyExc + bool :=
  match v with
  | None => inl TypeError
  | Some s => inr (negb (str_in sub s))
  end.

(** [a == b] between a database name and an identity field. *)
Definition eq_str (a : string) (b : PyStr) : bool :=
  match b with
  | Some s => String.eqb a s
  | None => false
  end.

(** [str(n)] of an integer: decimal digits, a leading [-] when negative. *)
Definition str_int (n : Z) : string :=
  NilZero.string_of_int (Z.to_int n).

(** Whitespace stripped by [int(...)]: HT, LF, VT, FF, CR and the space.
    The separators FS, GS, RS and US are not stripped. *)
Definition is_space (a : ascii) : bool :=
  let n := nat_of_ascii a in
  (Nat.leb 9 n && Nat.leb n 13) || Nat.eqb n 32.

(** The value of a decimal digit, from its character code. *)
Definition digit_of_ascii (a : ascii) : option Z :=
  let code := Z.of_nat (nat_of_ascii a) in
  if (48 <=? code) && (code <=? 57) then Some (code - 48) else None.

Fixpoint lstrip (s : string) : string :=
  match s with
  | EmptyString => EmptyString
  | String a s' => if is_space a then lstrip s' else s
  end.

Fixpoint rstrip (s : string) : string :=
  match s with
  | EmptyString => EmptyString
  | String a s' =>
      match rstrip s' with
      | EmptyString => if is_space a then EmptyString else String a EmptyString
      | r => String a r
      end
  end.

(** The digits of an integer literal: digits, with single underscores
    allowed between two digits. [after_digit] tells whether the previous
    character was a digit. *)
Fixpoint int_digits (s : string) (acc : Z) (after_digit : bool) : option Z :=
  match s with
  | EmptyString => if after_digit then Some acc else None
  | String a s' =>
      match digit_of_ascii a with
      | Some d => int_digits s' (10 * acc + d) true
      | None =>
          if Ascii.eqb a "_" && after_digit
          then int_digits s' acc false
          else None
      end
  end.

(** [int(s)] in base 10; [None] stands for the [ValueError]. Strings are
    byte strings here: digits and spaces outside ASCII are not modelled. *)
Definition int_of_str (s : string) : option Z :=
  match rstrip (lstrip s) with
  | EmptyString => None
  | String a r =>
      if Ascii.eqb a "-" then option_map Z.opp (int_digits r 0 false)
      else if Ascii.eqb a "+" then int_digits r 0 false
      else int_digits (String a r) 0 false
  end.

End Py.

(** ** The core module of [idarling/core/core.py] *)

Module IDArling.
Import Py.

(** The packets the core hands to [network.send_packet]. Their classes
    live in [shared/commands.py]; only the constructor arguments matter. *)
Inductive Packet : Type :=
| ListDatabasesQuery (project : PyStr)
| JoinSession (project database : PyStr) (tick : Z)
              (name : string) (color : Z) (ea : Z)
| LeaveSession (name : string).

(** The attributes of a [Core] instance. A hook attribute is [None] until
    [_install] instantiates it, then [Some b] where [b] tells whether the
    hook object is currently hooked into the host. [ticks] is the attribute
    that [closebase] creates by assigning [core.ticks]. *)
Record Core : Type := mkCore {
  _project : PyStr;
  _database : PyStr;
  _tick : Z;
  _idb_hooks : option bool;
  _idp_hooks : option bool;
  _hxe_hooks : option bool;
  _view_hooks : option bool;
  _ui_hooks : option bool;
  _ui_hooks_core : option bool;
  _idb_hooks_core : option bool;
  _hooked : bool;
  ticks : option Z
}.

Inductive HookAttr : Type :=
| idb_hooks | idp_hooks | hxe_hooks | view_hooks | ui_hooks
| ui_hooks_core | idb_hooks_core.

Definition hook_of (h : HookAttr) (c : Core) : option bool :=
  match h with
  | idb_hooks => _idb_hooks c
  | idp_hooks => _idp_hooks c
  | hxe_hooks => _hxe_hooks c
  | view_hooks => _view_hooks c
  | ui_hooks => _ui_hooks c
  | ui_hooks_core => _ui_hooks_core c
  | idb_hooks_core => _idb_hooks_core c
  end.

Definition with_project (v : PyStr) (c : Core) : Core :=
  let '(mkCore _ d t h1 h2 h3 h4 h5 c1 c2 hk tk) := c in
  mkCore v d t h1 h2 h3 h4 h5 c1 c2 hk tk.

Definition with_database (v : PyStr) (c : Core) : Core :=
  let '(mkCore p _ t h1 h2 h3 h4 h5 c1 c2 hk tk) := c in
  mkCore p v t h1 h2 h3 h4 h5 c1 c2 hk tk.

Definition with_tick (v : Z) (c : Core) : Core :=
  let '(mkCore p d _ h1 h2 h3 h4 h5 c1 c2 hk tk) := c in
  mkCore p d v h1 h2 h3 h4 h5 c1 c2 hk tk.

Definition with_hooked (v : bool) (c : Core) : Core :=
  let '(mkCore p d t h1 h2 h3 h4 h5 c1 c2 _ tk) := c in
  mkCore p d t h1 h2 h3 h4 h5 c1 c2 v tk.

Definition with_ticks (v : option Z) (c : Core) : Core :=
  let '(mkCore p d t h1 h2 h3 h4 h5 c1 c2 hk _) := c in
  mkCore p d t h1 h2 h3 h4 h5 c1 c2 hk v.

Definition with_hook (h : HookAttr) (v : option bool) (c : Core) : Core :=
  let '(mkCore p d t h1 h2 h3 h4 h5 c1 c2 hk tk) := c in
  match h with
  | idb_hooks => mkCore p d t v h2 h3 h4 h5 c1 c2 hk tk
  | idp_hooks => mkCore p d t h1 v h3 h4 h5 c1 c2 hk tk
  | hxe_hooks => mkCore p d t h1 h2 v h4 h5 c1 c2 hk tk
  | view_hooks => mkCore p d t h1 h2 h3 v h5 c1 c2 hk tk
  | ui_hooks => mkCore p d t h1 h2 h3 h4 v c1 c2 hk tk
  | ui_hooks_core => mkCore p d t h1 h2 h3 h4 h5 v c2 hk tk
  | idb_hooks_core => mkCore p d t h1 h2 h3 h4 h5 c1 v hk tk
  end.

(** [Core.__init__]. *)
Definition init_core : Core :=
  mkCore None None 0 None None None None None None None false None.

(** Everything the methods of [Core] read or write: the instance, the hash
    values of the netnode ["$ idarling"] of the open document, and the
    plugin's surroundings (transport, user configuration, cursor).
    [sent_packets] lists the packets handed to [network.send_packet], in
    call order; [dispatched] lists those of them that the transport sent,
    the ones handed over while it was connected; [awaiting] counts the
    deferreds that carry the [databases_listed] callback and have not been
    answered yet. *)
Record World : Type := mkWorld {
  core : Core;
  netnode : gmap string string;
  sent_packets : list Packet;
  connected : bool;
  awaiting : nat;
  user_name : string;
  user_color : Z;
  screen_ea : Z;
  dispatched : list Packet
}.

Definition with_core (f : Core -> Core) (w : World) : World :=
  let '(mkWorld c n s k a un uc ea ds) := w in
  mkWorld (f c) n s k a un uc ea ds.

Definition with_netnode (f : gmap string string -> gmap string string)
    (w : World) : World :=
  let '(mkWorld c n s k a un uc ea ds) := w in
  mkWorld c (f n) s k a un uc ea ds.

Definition with_sent (f : list Packet -> list Packet) (w : World) : World :=
  let '(mkWorld c n s k a un uc ea ds) := w in
  mkWorld c n (f s) k a un uc ea ds.

Definition with_connected (v : bool) (w : World) : World :=
  let '(mkWorld c n s _ a un uc ea ds) := w in
  mkWorld c n s v a un uc ea ds.

Definition with_dispatched (f : list Packet -> list Packet) (w : World)
    : World :=
  let '(mkWorld c n s k a un uc ea ds) := w in
  mkWorld c n s k a un uc ea (f ds).

Definition with_awaiting (f : nat -> nat) (w : World) : World :=
  let '(mkWorld c n s k a un uc ea ds) := w in
  mkWorld c n s k (f a) un uc ea ds.

(** *** The method monad: state, with exceptions that keep the state *)

Inductive Outcome (A : Type) : Type :=
| Returns (a : A)
| Raises (e : PyExc).
Arguments Returns {A} a.
Arguments Raises {A} e.

Definition M (A : Type) : Type := World -> Outcome A * World.

Definition ret {A : Type} (a : A) : M A := fun w => (Returns a, w).

Definition raise {A : Type} (e : PyExc) : M A := fun w => (Raises e, w).

Definition bind {A B : Type} (m : M A) (k : A -> M B) : M B :=
  fun w =>
    match m w with
    | (Returns a, w') => k a w'
    | (Raises e, w') => (Raises e, w')
    end.

Notation "x <- m ;; k" := (bind m (fun x => k))
  (at level 100, m at next level, k at level 200, only parsing).
Notation "m ;; k" := (bind m (fun _ => k))
  (at level 100, k at level 200, only parsing).

Definition get_core : M Core := fun w => (Returns (core w), w).

Definition modify_core (f : Core -> Core) : M unit :=
  fun w => (Returns tt, with_core f w).

Definition when (b : bool) (m : M unit) : M unit :=
  if b then m else ret tt.

(** [assert c], where evaluating [c] may itself raise. *)
Definition py_assert (c : PyExc + bool) : M unit :=
  match c with
  | inl e => raise e
  | inr true => ret tt
  | inr false => raise AssertionError
  end.

(** [str(v)] of an identity field. *)
Definition str_of (v : PyStr) : string :=
  match v with
  | Some s => s
  | None => "None"
  end.

(** *** Host and transport primitives *)

(** [node.hashval(key)]: the stored string, [None] when the key is unset. *)
Definition hashval (key : string) : M PyStr :=
  fun w => (Returns (netnode w !! key), w).

(** [node.hashset(key, value)]. *)
Definition hashset (key value : string) : M unit :=
  fun w => (Returns tt, with_netnode (insert key value) w).

(** Modelled from the spec: [network.send_packet], whose module is not part
    of the sources at hand. The packet is handed to the transport
    (fire-and-forget); with a connection the transport sends it and the call
    returns a deferred for the reply, without one nothing is sent and the
    call returns a falsy value. The result here is the truth value of what
    is returned, as [join_session] tests it. *)
Definition send_packet (p : Packet) : M bool :=
  fun w =>
    (Returns (connected w),
     with_dispatched (fun ds => if connected w then ds ++ [p] else ds)
       (with_sent (fun s => s ++ [p]) w)).

(** [d.add_callback(databases_listed)]: one more reply is awaited. *)
Definition add_callback : M unit :=
  fun w => (Returns tt, with_awaiting S w).

(** Modelled from the spec: the hook objects, whose classes are defined in
    [hooks.py] over the host's hook classes. Each is a handle that is hooked
    or unhooked on its own. [h.hook()] / [h.unhook()] on the attribute [h]
    of the core is an [AttributeError] while the attribute is still [None]. *)
Definition call_hook (h : HookAttr) (on : bool) : M unit :=
  c <- get_core ;;
  match hook_of h c with
  | None => raise AttributeError
  | Some _ => modify_core (with_hook h (Some on))
  end.

(** *** Methods of [Core] *)

Definition save_netnode : M unit :=
  c <- get_core ;;
  when (truthy (_project c)) (hashset "project" (str_of (_project c))) ;;
  c <- get_core ;;
  when (truthy (_database c)) (hashset "database" (str_of (_database c))) ;;
  c <- get_core ;;
  when (negb (_tick c =? 0)) (hashset "tick" (str_int (_tick c))).

Definition load_netnode : M unit :=
  p <- hashval "project" ;;
  modify_core (with_project (or_None p)) ;;
  c <- get_core ;;
  py_assert (not_in ".." (_project c)) ;;
  d <- hashval "database" ;;
  modify_core (with_database (or_None d)) ;;
  c <- get_core ;;
  py_assert (not_in ".." (_database c)) ;;
  t <- hashval "tick" ;;
  match int_of_str (or_str t "0") with
  | Some n => modify_core (with_tick n)
  | None => raise ValueError
  end.

(** The [project], [database] and [tick] property setters. *)
Definition project_setter (project : PyStr) : M unit :=
  modify_core (with_project project) ;;
  c <- get_core ;;
  py_assert (not_in ".." (_project c)) ;;
  save_netnode.

Definition database_setter (database : PyStr) : M unit :=
  modify_core (with_database database) ;;
  c <- get_core ;;
  py_assert (not_in ".." (_database c)) ;;
  save_netnode.

Definition tick_setter (tick : Z) : M unit :=
  modify_core (with_tick tick) ;;
  save_netnode.

Definition hook_all : M unit :=
  c <- get_core ;;
  if _hooked c then ret tt
  else
    call_hook idb_hooks true ;;
    call_hook idp_hooks true ;;
    call_hook hxe_hooks true ;;
    call_hook view_hooks true ;;
    call_hook ui_hooks true ;;
    modify_core (with_hooked true).

Definition unhook_all : M unit :=
  c <- get_core ;;
  if negb (_hooked c) then ret tt
  else
    call_hook idb_hooks false ;;
    call_hook idp_hooks false ;;
    call_hook hxe_hooks false ;;
    call_hook view_hooks false ;;
    call_hook ui_hooks false ;;
    modify_core (with_hooked false).

(** The callback [databases_listed] of [join_session], applied to the names
    [d.name] of the databases of the reply. It reads the instance when the
    reply is delivered. *)
Definition databases_listed (names : list string) : M unit :=
  c <- get_core ;;
  if existsb (fun name => eq_str name (_database c)) names then
    fun w =>
      (c <- get_core ;;
       send_packet (JoinSession (_project c) (_database c) (_tick c)
                      (user_name w) (user_color w) (screen_ea w)) ;;
       hook_all) w
  else ret tt.

Definition join_session : M unit :=
  c <- get_core ;;
  if truthy (_project c) && truthy (_database c) then
    d <- send_packet (ListDatabasesQuery (_project c)) ;;
    when d add_callback
  else ret tt.

Definition leave_session : M unit :=
  c <- get_core ;;
  if truthy (_project c) && truthy (_database c) then
    fun w => (send_packet (LeaveSession (user_name w)) ;; unhook_all) w
  else ret tt.

(** [_install]: instantiates the five user-event hooks, then creates and
    hooks the two core hooks. *)
Definition _install : M bool :=
  modify_core (with_hook idb_hooks (Some false)) ;;
  modify_core (with_hook idp_hooks (Some false)) ;;
  modify_core (with_hook hxe_hooks (Some false)) ;;
  modify_core (with_hook view_hooks (Some false)) ;;
  modify_core (with_hook ui_hooks (Some false)) ;;
  modify_core (with_hook ui_hooks_core (Some false)) ;;
  call_hook ui_hooks_core true ;;
  modify_core (with_hook idb_hooks_core (Some false)) ;;
  call_hook idb_hooks_core true ;;
  ret true.

Definition _uninstall : M bool :=
  call_hook idb_hooks_core false ;;
  call_hook ui_hooks_core false ;;
  unhook_all ;;
  ret true.

(** [UIHooksCore.ready_to_run]. The painter calls of the two core hooks
    touch no attribute of the core and are left out. *)
Definition ready_to_run : M unit :=
  load_netnode ;;
  join_session.

(** [IDBHooksCore.closebase]. The last assignment creates the attribute
    [ticks]; it does not go through the [tick] setter. *)
Definition closebase : M Z :=
  leave_session ;;
  save_netnode ;;
  project_setter None ;;
  database_setter None ;;
  modify_core (with_ticks (Some 0)) ;;
  ret 0.

(** *** The plugin as a transition system *)

(** What can happen to an installed core: the two host signals, a reply to
    an outstanding database query, the setters called by the rest of the
    plugin, the transport connecting or disconnecting, and the module
    being uninstalled. *)
Inductive Event : Type :=
| ReadyToRun
| CloseBase
| DatabasesReply (names : list string)
| SetProject (v : PyStr)
| SetDatabase (v : PyStr)
| SetTick (t : Z)
| Network (up : bool)
| Uninstall.

Definition is_hooked (o : option bool) : bool :=
  match o with
  | Some true => true
  | _ => false
  end.

(** The host calls a hook object only while it is hooked; a reply is
    delivered only to a registered callback. An exception raised by a
    handler ends the handler and leaves the world as it was at the raise. *)
Definition step (w : World) (e : Event) : World :=
  match e with
  | ReadyToRun =>
      if is_hooked (_ui_hooks_core (core w)) then snd (ready_to_run w) else w
  | CloseBase =>
      if is_hooked (_idb_hooks_core (core w)) then snd (closebase w) else w
  | DatabasesReply names =>
      match awaiting w with
      | O => w
      | S _ => snd (databases_listed names (with_awaiting Nat.pred w))
      end
  | SetProject v => snd (project_setter v w)
  | SetDatabase v => snd (database_setter v w)
  | SetTick t => snd (tick_setter t w)
  | Network up => with_connected up w
  | Uninstall => snd (_uninstall w)
  end.

Definition run (w : World) (trace : list Event) : World :=
  fold_left step trace w.

(** The world right after [Core.__init__] and [_install], for a document
    whose netnode holds [node]. *)
Definition boot (node : gmap string string) (up : bool)
    (name : string) (color ea : Z) : World :=
  snd (_install (mkWorld init_core node [] up 0%nat name color ea [])).

Definition reachable (w : World) : Prop :=
  exists node up name color ea trace,
    w = run (boot node up name color ea) trace.

(** *** Observables *)

(** The five user-event hooks. *)
Definition user_hooks (c : Core) : list (option bool) :=
  [_idb_hooks c; _idp_hooks c; _hxe_hooks c; _view_hooks c; _ui_hooks c].

Definition all_hooked (w : World) : bool :=
  forallb is_hooked (user_hooks (core w)).

Definition any_hooked (w : World) : bool :=
  existsb is_hooked (user_hooks (core w)).

(** The core hooks are installed. *)
Definition installed (w : World) : bool :=
  is_hooked (_ui_hooks_core (core w))
  && is_hooked (_idb_hooks_core (core w)).

(** The effect of one more packet on whether the last join or leave packet
    of a list is a join. *)
Definition joined_after (b : bool) (p : Packet) : bool :=
  match p with
  | JoinSession _ _ _ _ _ _ => true
  | LeaveSession _ => false
  | ListDatabasesQuery _ => b
  end.

(** The session is joined once a join request has been dispatched and until
    a leave request is: the last join or leave packet that the transport
    sent is a join. *)
Definition joined (w : World) : bool :=
  fold_left joined_after (dispatched w) false.

(** The core has asked to join: the last join or leave packet it handed to
    the transport, sent or not, is a join. *)
Definition requested (w : World) : bool :=
  fold_left joined_after (sent_packets w) false.

Inductive SessionState : Type :=
| Idle
| AwaitingDatabaseList
| Joined.

Definition session_state (w : World) : SessionState :=
  if joined w then Joined
  else match awaiting w with
       | O => Idle
       | S _ => AwaitingDatabaseList
       end.

(** The identity triple held by the instance. *)
Definition identity (w : World) : PyStr * PyStr * Z :=
  (_project (core w), _database (core w), _tick (core w)).

(** *** Well-formedness and the data the hook life cycle depends on *)

(** The observer set is wholly hooked or wholly unhooked, as the flag
    [_hooked] records, and the two core hooks have been created. *)
Definition consistent (w : World) : Prop :=
  user_hooks (core w) = repeat (Some (_hooked (core w))) 5
  /\ _ui_hooks_core (core w) <> None
  /\ _idb_hooks_core (core w) <> None.

(** The hook objects, the flag and the session: what the identity methods
    leave alone. *)
Definition control (w : World)
    : list (option bool) * option bool * option bool * bool * bool * bool :=
  (user_hooks (core w), _ui_hooks_core (core w), _idb_hooks_core (core w),
   _hooked (core w), joined w, requested w).

Definition preserves_control {A : Type} (m : M A) : Prop :=
  forall w, control (snd (m w)) = control w.

(** The hooks follow what the core asked of the transport. *)
Definition hook_invariant (w : World) : Prop :=
  consistent w
  /\ (_hooked (core w) = true -> requested w = true)
  /\ (installed w = true -> _hooked (core w) = requested w).

(** The transport is connected and has sent every packet handed to it. *)
Definition link_up (w : World) : Prop :=
  connected w = true /\ dispatched w = sent_packets w.

Definition keeps_link {A : Type} (m : M A) : Prop :=
  forall w, link_up w -> link_up (snd (m w)).

(** What a world keeps of an earlier one: every key stored in the netnode
    is still stored, and the packets sent are a prefix of those sent now. *)
Definition history_kept (w w' : World) : Prop :=
  (forall key : string,
      is_Some (netnode w !! key) -> is_Some (netnode w' !! key))
  /\ exists later : list Packet, sent_packets w' = sent_packets w ++ later.

Definition keeps_history {A : Type} (m : M A) : Prop :=
  forall w, history_kept w (snd (m w)).

(** *** The documents and traces of the scenarios *)

(** A document bound to project [alpha], database [fw.idb], at tick 7. *)
Definition bound_node : gmap string string :=
  <["project" := "alpha"]> (<["database" := "fw.idb"]> (<["tick" := "7"]> ∅)).

Definition bound_world : World := boot bound_node true "analyst" 255 4096.

(** The same document after the host is ready and the relay has answered
    with the databases [fw.idb] and [other.idb]. *)
Definition joined_world : World :=
  run bound_world [ReadyToRun; DatabasesReply ["fw.idb"; "other.idb"]].

(** A document never bound to a project: its netnode is empty. *)
Definition fresh_world : World := boot ∅ true "analyst" 255 4096.

End IDArling.

(** ** The event translation hooks of [plugin/idaconnect/core.py] *)

Module IDAConnect.

(** The host objects the callbacks receive, with the attributes they read. *)
Record insn_t : Type := { insn_ea : Z }.
Record func_t : Type := { startEA : Z; endEA : Z }.

(** Modelled from the spec: the outbound events, whose classes are defined
    in [events/]. One constructor per event class, carrying the constructor
    arguments in order. *)
Inductive Event : Type :=
| UndefinedEvent (ea : Z)
| MakeCodeEvent (ea : Z)
| MakeDataEvent (ea flags tid size : Z)
| RenamedEvent (ea : Z) (new_name : string) (local_name : bool)
| FuncAddedEvent (start_ea end_ea : Z)
| DeletingFuncEvent (start_ea : Z)
| SetFuncStartEvent (start_ea new_ea : Z)
| SetFuncEndEvent (start_ea new_ea : Z)
| CmtChangedEvent (ea : Z) (repeatable_cmt : bool) (cmt : option string).

(** Modelled from the spec: the transport as the hooks see it;
    [send_event] is fire-and-forget and queues the event. *)
Record Network : Type := { sent_events : list Event }.

Definition send_event (event : Event) (net : Network) : Network :=
  {| sent_events := sent_events net ++ [event] |}.

(** The part of the host the callbacks read: [idc.get_cmt]. *)
Record Host : Type := { get_cmt : Z -> bool -> option string }.

(** [Hooks._send_event]. *)
Definition _send_event (event : Event) (net : Network) : Network :=
  send_event event net.

(** A callback returns its integer result and the transport it leaves. *)
Definition Callback : Type := Network -> Z * Network.

(** [IDPHooks]. *)
Definition ev_undefine (ea : Z) : Callback :=
  fun net => (0, _send_event (UndefinedEvent ea) net).

(** [IDBHooks]. *)
Definition make_code (insn : insn_t) : Callback :=
  fun net => (0, _send_event (MakeCodeEvent (insn_ea insn)) net).

Definition make_data (ea flags tid size : Z) : Callback :=
  fun net => (0, _send_event (MakeDataEvent ea flags tid size) net).

Definition renamed (ea : Z) (new_name : string) (local_name : bool)
    : Callback :=
  fun net => (0, _send_event (RenamedEvent ea new_name local_name) net).

Definition func_added (func : func_t) : Callback :=
  fun net =>
    (0, _send_event (FuncAddedEvent (startEA func) (endEA func)) net).

Definition deleting_func (func : func_t) : Callback :=
  fun net => (0, _send_event (DeletingFuncEvent (startEA func)) net).

Definition set_func_start (func : func_t) (new_ea : Z) : Callback :=
  fun net =>
    (0, _send_event (SetFuncStartEvent (startEA func) new_ea) net).

Definition set_func_end (func : func_t) (new_ea : Z) : Callback :=
  fun net => (0, _send_event (SetFuncEndEvent (startEA func) new_ea) net).

Definition cmt_changed (host : Host) (ea : Z) (repeatable_cmt : bool)
    : Callback :=
  fun net =>
    let cmt := get_cmt host ea repeatable_cmt in
    (0, _send_event (CmtChangedEvent ea repeatable_cmt cmt) net).

(** A notification of the host: which callback it invokes, with which
    arguments. *)
Inductive Notification : Type :=
| on_ev_undefine (ea : Z)
| on_make_code (insn : insn_t)
| on_make_data (ea flags tid size : Z)
| on_renamed (ea : Z) (new_name : string) (local_name : bool)
| on_func_added (func : func_t)
| on_deleting_func (func : func_t)
| on_set_func_start (func : func_t) (new_ea : Z)
| on_set_func_end (func : func_t) (new_ea : Z)
| on_cmt_changed (ea : Z) (repeatable_cmt : bool).

Definition notify (host : Host) (n : Notification) : Callback :=
  match n with
  | on_ev_undefine ea => ev_undefine ea
  | on_make_code insn => make_code insn
  | on_make_data ea flags tid size => make_data ea flags tid size
  | on_renamed ea new_name local_name => renamed ea new_name local_name
  | on_func_added func => func_added func
  | on_deleting_func func => deleting_func func
  | on_set_func_start func new_ea => set_func_start func new_ea
  | on_set_func_end func new_ea => set_func_end func new_ea
  | on_cmt_changed ea repeatable_cmt => cmt_changed host ea repeatable_cmt
  end.

(** The mutation kinds, to relate a notification to the event it yields. *)
Inductive Kind : Type :=
| Undefined | CodeDefined | DataDefined | Renamed | FunctionAdded
| FunctionRemoved | FunctionStartChanged | FunctionEndChanged
| CommentChanged.

Definition kind_of_notification (n : Notification) : Kind :=
  match n with
  | on_ev_undefine _ => Undefined
  | on_make_code _ => CodeDefined
  | on_make_data _ _ _ _ => DataDefined
  | on_renamed _ _ _ => Renamed
  | on_func_added _ => FunctionAdded
  | on_deleting_func _ => FunctionRemoved
  | on_set_func_start _ _ => FunctionStartChanged
  | on_set_func_end _ _ => FunctionEndChanged
  | on_cmt_changed _ _ => CommentChanged
  end.

Definition kind_of_event (e : Event) : Kind :=
  match e with
  | UndefinedEvent _ => Undefined
  | MakeCodeEvent _ => CodeDefined
  | MakeDataEvent _ _ _ _ => DataDefined
  | RenamedEvent _ _ _ => Renamed
  | FuncAddedEvent _ _ => FunctionAdded
  | DeletingFuncEvent _ => FunctionRemoved
  | SetFuncStartEvent _ _ => FunctionStartChanged
  | SetFuncEndEvent _ _ => FunctionEndChanged
  | CmtChangedEvent _ _ _ => CommentChanged
  end.

(** [Core] of this file: its two hook attributes are created by [install];
    [__init__] only stores the plugin, so they are unset ([None] here)
    before. *)
Record Core : Type := mkCore {
  _idp_hooks : option bool;
  _idb_hooks : option bool
}.

(** [Core.__init__]. *)
Definition init_core : Core := mkCore None None.

(** [Core.install]: both hook objects are created, then hooked. *)
Definition install (c : Core) : Core :=
  let c1 := mkCore (Some false) (_idb_hooks c) in
  let c2 := mkCore (_idp_hooks c1) (Some false) in
  let c3 := mkCore (Some true) (_idb_hooks c2) in
  mkCore (_idp_hooks c3) (Some true).

(** [Core.uninstall]: reading an attribute that [install] has not created
    raises an [AttributeError]; the core is returned as it stands at the
    raise. *)
Definition uninstall (c : Core) : option Py.PyExc * Core :=
  match _idp_hooks c with
  | None => (Some Py.AttributeError, c)
  | Some _ =>
      let c1 := mkCore (Some false) (_idb_hooks c) in
      match _idb_hooks c1 with
      | None => (Some Py.AttributeError, c1)
      | Some _ => (None, mkCore (_idp_hooks c1) (Some false))
      end
  end.

(** The host delivering a sequence of notifications, one callback call
    each, in order; the results of the calls are collected. *)
Fixpoint notify_all (host : Host) (ns : list Notification) (net : Network)
    : list Z * Network :=
  match ns with
  | [] => ([], net)
  | n :: ns' =>
      let (r, net1) := notify host n net in
      let (rs, net2) := notify_all host ns' net1 in
      (r :: rs, net2)
  end.

End IDAConnect.

(** * Properties *)

(** ** Facts about the builtins *)

Section PyFacts.
Import Py.

Lemma int_digits_acc (u : uint) :
  forall (p : positive) (b : bool),
    int_digits (NilEmpty.string_of_uint u) (Z.pos p) true
    = Some (Z.pos (Pos.of_uint_acc u p)).
Proof.
  induction u; intros p b;
    cbn [NilEmpty.string_of_uint int_digits Pos.of_uint_acc];
    try reflexivity.
  all: match goal with
       | |- context [digit_of_ascii ?c] =>
           let v := eval vm_compute in (digit_of_ascii c) in
           change (digit_of_ascii c) with v
       end; cbv iota.
  all: match goal with
       | |- int_digits _ ?a true = _ =>
           match goal with
           | |- _ = Some (Z.pos (Pos.of_uint_acc _ ?q)) =>
               replace a with (Z.pos q) by lia
           end
       end.
  all: apply IHu; exact b.
Qed.

Lemma int_digits_uint (u : uint) :
  forall b : bool,
    u <> Nil \/ b = true ->
    int_digits (NilEmpty.string_of_uint u) 0 b = Some (Z.of_uint u).
Proof.
  unfold Z.of_uint.
  induction u; intros b Hb.
  1: destruct Hb as [Hb | ->]; [congruence | reflexivity].
  1: cbn; apply IHu; now right.
  all: cbn; change (10 * 0) with 0; cbn [Z.add];
    exact (int_digits_acc u _ true).
Qed.

Lemma rstrip_cons (a : ascii) (s : string) :
  rstrip s = s -> is_space a = false -> rstrip (String a s) = String a s.
Proof.
  intros Hs Ha. cbn [rstrip]. rewrite Hs.
  destruct s; [now rewrite Ha | reflexivity].
Qed.

Lemma rstrip_uint (u : uint) :
  rstrip (NilEmpty.string_of_uint u) = NilEmpty.string_of_uint u.
Proof.
  induction u; cbn [NilEmpty.string_of_uint rstrip]; try reflexivity.
  all: rewrite IHu; now destruct (NilEmpty.string_of_uint u).
Qed.

Lemma int_of_str_uint (u : uint) :
  u <> Nil ->
  int_of_str (NilEmpty.string_of_uint u) = Some (Z.of_uint u).
Proof.
  intros Hu. unfold int_of_str.
  assert (lstrip (NilEmpty.string_of_uint u) = NilEmpty.string_of_uint u)
    as -> by now destruct u.
  rewrite rstrip_uint.
  rewrite <- (int_digits_uint u false) by now left.
  now destruct u.
Qed.

Lemma int_of_str_neg_uint (u : uint) :
  u <> Nil ->
  int_of_str (String "-" (NilEmpty.string_of_uint u))
  = Some (- Z.of_uint u).
Proof.
  intros Hu. unfold int_of_str.
  change (lstrip (String "-" (NilEmpty.string_of_uint u)))
    with (String "-" (NilEmpty.string_of_uint u)).
  rewrite rstrip_cons by (apply rstrip_uint || reflexivity).
  change (Ascii.eqb "-" "-") with true. cbv iota.
  now rewrite (int_digits_uint u false) by now left.
Qed.

(** [int(str(n)) == n] for every integer. *)
Lemma int_of_str_str_int (n : Z) : int_of_str (str_int n) = Some n.
Proof.
  rewrite <- (DecimalZ.of_to n) at 2.
  unfold str_int, Z.to_int.
  destruct n as [| p | p]; [reflexivity | |];
    pose proof (DecimalPos.Unsigned.to_uint_nonnil p) as Hp;
    cbn [NilZero.string_of_int Z.of_int];
    (replace (NilZero.string_of_uint (Pos.to_uint p))
       with (NilEmpty.string_of_uint (Pos.to_uint p))
       by (now destruct (Pos.to_uint p))).
  - now apply int_of_str_uint.
  - now apply int_of_str_neg_uint.
Qed.

(** [str(n)] is never the empty string. *)
Lemma str_int_nonempty (n : Z) : str_int n <> EmptyString.
Proof.
  intros H. pose proof (int_of_str_str_int n) as R.
  rewrite H in R. discriminate.
Qed.

End PyFacts.

(** ** Facts about the methods of the core *)

Import Py IDArling.

(** *** Methods that leave the hooks and the session alone *)

Lemma preserves_ret {A : Type} (a : A) : preserves_control (ret a).
Proof. now intros w. Qed.

Lemma preserves_raise {A : Type} (e : PyExc) :
  preserves_control (@raise A e).
Proof. now intros w. Qed.

Lemma preserves_bind {A B : Type} (m : M A) (k : A -> M B) :
  preserves_control m ->
  (forall a, preserves_control (k a)) ->
  preserves_control (bind m k).
Proof.
  intros Hm Hk w. unfold bind.
  specialize (Hm w). destruct (m w) as [[a | e] w1]; cbn in *.
  - now rewrite Hk.
  - exact Hm.
Qed.

Lemma preserves_get_core : preserves_control get_core.
Proof. now intros w. Qed.

Lemma preserves_hashval (key : string) : preserves_control (hashval key).
Proof. now intros w. Qed.

Lemma preserves_hashset (key value : string) :
  preserves_control (hashset key value).
Proof. now intros [c n s k a un uc ea ds]. Qed.

Lemma preserves_with_project (v : PyStr) :
  preserves_control (modify_core (with_project v)).
Proof. now intros [[] n s k a un uc ea ds]. Qed.

Lemma preserves_with_database (v : PyStr) :
  preserves_control (modify_core (with_database v)).
Proof. now intros [[] n s k a un uc ea ds]. Qed.

Lemma preserves_with_tick (v : Z) :
  preserves_control (modify_core (with_tick v)).
Proof. now intros [[] n s k a un uc ea ds]. Qed.

Lemma preserves_with_ticks (v : option Z) :
  preserves_control (modify_core (with_ticks v)).
Proof. now intros [[] n s k a un uc ea ds]. Qed.

Lemma preserves_when (b : bool) (m : M unit) :
  preserves_control m -> preserves_control (when b m).
Proof. destruct b; [trivial | intros _; apply preserves_ret]. Qed.

Lemma preserves_assert (c : PyExc + bool) : preserves_control (py_assert c).
Proof. destruct c as [e | []]; now intros w. Qed.

Create HintDb py_frame.

#[local] Hint Resolve preserves_ret preserves_raise preserves_get_core
  preserves_hashval preserves_hashset preserves_with_project
  preserves_with_database preserves_with_tick preserves_with_ticks
  preserves_when preserves_assert : py_frame.

Ltac frame :=
  first [ solve [auto with py_frame]
        | apply preserves_bind; [frame | intros ?; frame]
        | idtac ].

Lemma preserves_save_netnode : preserves_control save_netnode.
Proof. unfold save_netnode. frame. Qed.

Lemma preserves_load_netnode : preserves_control load_netnode.
Proof.
  unfold load_netnode. frame.
  destruct (int_of_str _); auto with py_frame.
Qed.

#[local] Hint Resolve preserves_save_netnode preserves_load_netnode : py_frame.

Lemma preserves_project_setter (v : PyStr) :
  preserves_control (project_setter v).
Proof. unfold project_setter. frame. Qed.

Lemma preserves_database_setter (v : PyStr) :
  preserves_control (database_setter v).
Proof. unfold database_setter. frame. Qed.

Lemma preserves_tick_setter (t : Z) : preserves_control (tick_setter t).
Proof. unfold tick_setter. frame. Qed.

#[local] Hint Resolve preserves_project_setter preserves_database_setter
  preserves_tick_setter : py_frame.

Lemma preserves_join_session : preserves_control join_session.
Proof.
  intros [c n s k a un uc ea ds].
  unfold join_session, bind, get_core, send_packet, when, add_callback, ret.
  cbn. destruct (truthy (_project c) && truthy (_database c)); [ | easy].
  destruct k; unfold control, joined, requested; cbn;
    now rewrite ?fold_left_app.
Qed.

#[local] Hint Resolve preserves_join_session : py_frame.

Lemma preserves_ready_to_run : preserves_control ready_to_run.
Proof. unfold ready_to_run. frame. Qed.

(** The invariant only looks at the control data. *)
Lemma hook_invariant_control (w w' : World) :
  control w' = control w -> hook_invariant w -> hook_invariant w'.
Proof.
  unfold control, hook_invariant, consistent, installed. intros H.
  apply pair_equal_spec in H as [H Hr].
  apply pair_equal_spec in H as [H Hj].
  apply pair_equal_spec in H as [H Hh].
  apply pair_equal_spec in H as [H Hc2].
  apply pair_equal_spec in H as [Hu Hc1].
  now rewrite Hu, Hc1, Hc2, Hh, Hr.
Qed.

Lemma control_bind_rest {A B : Type} (m : M A) (k : A -> M B) (w : World) :
  (forall a, preserves_control (k a)) ->
  control (snd (bind m k w)) = control (snd (m w)).
Proof.
  intros Hk. unfold bind. destruct (m w) as [[a | e] w1]; cbn; [ | easy].
  apply Hk.
Qed.

(** *** The hook invariant along the transitions *)

Ltac open_world w :=
  destruct w as [[p d t h1 h2 h3 h4 h5 c1 c2 hk tk] n s k a un uc ea ds].

Ltac open_invariant :=
  unfold hook_invariant, consistent, installed, requested; cbn;
  intros [[Hu [Hc1 Hc2]] [H1 H2]];
  injection Hu as -> -> -> -> ->.

Ltac exec :=
  unfold databases_listed, leave_session, _uninstall, hook_all, unhook_all,
    call_hook, send_packet, bind, get_core, modify_core, ret, raise;
  cbn.

Lemma invariant_databases_listed (names : list string) (w : World) :
  hook_invariant w -> hook_invariant (snd (databases_listed names w)).
Proof.
  open_world w. open_invariant. exec.
  destruct (existsb _ names); cbn; [ | tauto].
  destruct hk; cbn; rewrite fold_left_app; cbn; tauto.
Qed.

Lemma invariant_leave_session (w : World) :
  hook_invariant w -> hook_invariant (snd (leave_session w)).
Proof.
  open_world w. open_invariant. exec.
  destruct (truthy p && truthy d); cbn; [ | tauto].
  destruct hk; cbn; rewrite fold_left_app; cbn; tauto.
Qed.

Lemma invariant_uninstall (w : World) :
  hook_invariant w -> hook_invariant (snd (_uninstall w)).
Proof.
  open_world w. open_invariant. exec.
  destruct c2 as [c2 | ]; [ | congruence].
  destruct c1 as [c1 | ]; [ | congruence]. cbn.
  destruct hk; cbn; intuition congruence.
Qed.

Lemma invariant_closebase (w : World) :
  hook_invariant w -> hook_invariant (snd (closebase w)).
Proof.
  intros Hw. unfold closebase.
  eapply hook_invariant_control; [ | apply invariant_leave_session, Hw].
  apply control_bind_rest. intros _. frame.
Qed.

Lemma invariant_step (w : World) (e : Event) :
  hook_invariant w -> hook_invariant (step w e).
Proof.
  intros Hw. destruct e; cbn [step].
  - destruct (is_hooked _); [ | exact Hw].
    eapply hook_invariant_control; [apply preserves_ready_to_run | exact Hw].
  - destruct (is_hooked _); [ | exact Hw].
    now apply invariant_closebase.
  - destruct (awaiting w) eqn:E; [exact Hw | ].
    apply invariant_databases_listed.
    eapply hook_invariant_control; [ | exact Hw]. now destruct w.
  - eapply hook_invariant_control;
      [apply preserves_project_setter | exact Hw].
  - eapply hook_invariant_control;
      [apply preserves_database_setter | exact Hw].
  - eapply hook_invariant_control; [apply preserves_tick_setter | exact Hw].
  - eapply hook_invariant_control; [ | exact Hw]. now destruct w.
  - now apply invariant_uninstall.
Qed.

Lemma invariant_run (trace : list Event) :
  forall w, hook_invariant w -> hook_invariant (run w trace).
Proof.
  induction trace as [ | e trace IH]; intros w Hw; [exact Hw | ].
  cbn. apply IH. now apply invariant_step.
Qed.

Lemma invariant_boot (node : gmap string string) (up : bool)
    (name : string) (color ea : Z) :
  hook_invariant (boot node up name color ea).
Proof.
  unfold hook_invariant, consistent, installed, requested. cbn.
  repeat split; congruence.
Qed.

Lemma invariant_reachable (w : World) : reachable w -> hook_invariant w.
Proof.
  intros (node & up & name & color & ea & trace & ->).
  apply invariant_run, invariant_boot.
Qed.

(** *** Saving and loading the identity *)

Ltac exec_netnode :=
  unfold save_netnode, load_netnode, project_setter, database_setter,
    tick_setter, when, hashset, hashval, py_assert, bind, get_core,
    modify_core, ret, raise;
  cbn.

Ltac save_cases p d t :=
  destruct (truthy p); cbn; destruct (truthy d); cbn;
  destruct (t =? 0); cbn.

Lemma save_netnode_returns (w : World) : fst (save_netnode w) = Returns tt.
Proof.
  open_world w. exec_netnode.
  save_cases p d t; reflexivity.
Qed.

(** Only the netnode changes. *)
Lemma save_netnode_frame (w : World) :
  snd (save_netnode w)
  = with_netnode (fun _ => netnode (snd (save_netnode w))) w.
Proof.
  open_world w. exec_netnode.
  save_cases p d t; reflexivity.
Qed.

Lemma save_netnode_project (w : World) :
  netnode (snd (save_netnode w)) !! "project"
  = if truthy (_project (core w)) then Some (str_of (_project (core w)))
    else netnode w !! "project".
Proof.
  open_world w. exec_netnode.
  save_cases p d t; now simplify_map_eq.
Qed.

Lemma save_netnode_database (w : World) :
  netnode (snd (save_netnode w)) !! "database"
  = if truthy (_database (core w)) then Some (str_of (_database (core w)))
    else netnode w !! "database".
Proof.
  open_world w. exec_netnode.
  save_cases p d t; now simplify_map_eq.
Qed.

Lemma save_netnode_tick (w : World) :
  netnode (snd (save_netnode w)) !! "tick"
  = if _tick (core w) =? 0 then netnode w !! "tick"
    else Some (str_int (_tick (core w))).
Proof.
  open_world w. exec_netnode.
  save_cases p d t; now simplify_map_eq.
Qed.

Lemma save_netnode_other (w : World) (key : string) :
  key <> "project" -> key <> "database" -> key <> "tick" ->
  netnode (snd (save_netnode w)) !! key = netnode w !! key.
Proof.
  intros K1 K2 K3. open_world w. exec_netnode.
  save_cases p d t; now simplify_map_eq.
Qed.

Lemma truthy_Some (s : string) : s <> "" -> truthy (Some s) = true.
Proof. intros Hs. cbn. now apply String.eqb_neq in Hs as ->. Qed.

Lemma or_str_str_int (n : Z) : or_str (Some (str_int n)) "0" = str_int n.
Proof.
  cbn. pose proof (str_int_nonempty n) as H.
  now apply String.eqb_neq in H as ->.
Qed.

(** The tick that [load_netnode] reads back after [save_netnode]. *)
Lemma saved_tick_parses (w : World) :
  _tick (core w) <> 0 \/ netnode w !! "tick" = None ->
  int_of_str (or_str (netnode (snd (save_netnode w)) !! "tick") "0")
  = Some (_tick (core w)).
Proof.
  intros H. rewrite save_netnode_tick.
  destruct (Z.eqb_spec (_tick (core w)) 0) as [E | E].
  - destruct H as [H | ->]; [congruence | now rewrite E].
  - rewrite or_str_str_int. apply int_of_str_str_int.
Qed.

(** A well-formed stored identity loads. *)
Lemma load_netnode_ok (w : World) (p d : string) (t : Z) :
  netnode w !! "project" = Some p -> p <> "" -> str_in ".." p = false ->
  netnode w !! "database" = Some d -> d <> "" -> str_in ".." d = false ->
  int_of_str (or_str (netnode w !! "tick") "0") = Some t ->
  load_netnode w
  = (Returns tt,
     with_core
       (fun c => with_tick t (with_database (Some d) (with_project (Some p) c)))
       w).
Proof.
  intros Hp Hp0 Hp1 Hd Hd0 Hd1 Ht.
  destruct w as [[p' d' t' h1 h2 h3 h4 h5 c1 c2 hk tk] n s k a un uc ea ds].
  cbn in Hp, Hd, Ht. exec_netnode. unfold or_None.
  rewrite Hp, (truthy_Some p Hp0). cbn. rewrite Hp1. cbn.
  rewrite Hd, (truthy_Some d Hd0). cbn. rewrite Hd1. cbn.
  now rewrite Ht.
Qed.

(** A stored project that is unset or empty: the assertion itself faults. *)
Lemma load_netnode_no_project (w : World) :
  or_None (netnode w !! "project") = None ->
  load_netnode w = (Raises TypeError, with_core (with_project None) w).
Proof.
  intros H. open_world w. cbn in H. exec_netnode. now rewrite H.
Qed.

(** A stored project with a [..] in it fails the assertion. *)
Lemma load_netnode_dotdot_project (w : World) (p : string) :
  netnode w !! "project" = Some p -> str_in ".." p = true ->
  load_netnode w
  = (Raises AssertionError, with_core (with_project (Some p)) w).
Proof.
  intros Hp Hp1.
  destruct w as [[p' d' t' h1 h2 h3 h4 h5 c1 c2 hk tk] n s k a un uc ea ds].
  cbn in Hp. exec_netnode. unfold or_None.
  assert (p <> "") as Hp0 by (intros ->; discriminate).
  rewrite Hp, (truthy_Some p Hp0). cbn. now rewrite Hp1.
Qed.

(** A stored database with a [..] in it fails the assertion too, once the
    project has been accepted; the field holds the stored value as it is. *)
Lemma load_netnode_dotdot_database (w : World) (p d : string) :
  netnode w !! "project" = Some p -> p <> "" -> str_in ".." p = false ->
  netnode w !! "database" = Some d -> str_in ".." d = true ->
  load_netnode w
  = (Raises AssertionError,
     with_core (fun c => with_database (Some d) (with_project (Some p) c)) w).
Proof.
  intros Hp Hp0 Hp1 Hd Hd1.
  destruct w as [[p' d' t' h1 h2 h3 h4 h5 c1 c2 hk tk] n s k a un uc ea ds].
  cbn in Hp, Hd. exec_netnode. unfold or_None.
  assert (d <> "") as Hd0 by (intros ->; discriminate).
  rewrite Hp, (truthy_Some p Hp0). cbn. rewrite Hp1. cbn.
  rewrite Hd, (truthy_Some d Hd0). cbn. now rewrite Hd1.
Qed.

(** Loading after saving an identity whose project and database are set. *)
Lemma load_netnode_after_save (w : World) (p d : string) :
  _project (core w) = Some p -> p <> "" -> str_in ".." p = false ->
  _database (core w) = Some d -> d <> "" -> str_in ".." d = false ->
  _tick (core w) <> 0 \/ netnode w !! "tick" = None ->
  forall f : Core -> Core,
    load_netnode (with_core f (snd (save_netnode w)))
    = (Returns tt,
       with_core
         (fun c => with_tick (_tick (core w))
                     (with_database (Some d) (with_project (Some p) c)))
         (with_core f (snd (save_netnode w)))).
Proof.
  intros Hp Hp0 Hp1 Hd Hd0 Hd1 Ht f.
  assert (forall v : World, netnode (with_core f v) = netnode v) as N
    by now intros [].
  apply load_netnode_ok; rewrite ?N; try assumption.
  - now rewrite save_netnode_project, Hp, truthy_Some.
  - now rewrite save_netnode_database, Hd, truthy_Some.
  - now apply saved_tick_parses.
Qed.

(** *** Leaving and closing *)

Ltac open_consistent :=
  unfold consistent; cbn; intros [Hu [Hc1 Hc2]];
  injection Hu as -> -> -> -> ->.

Lemma leave_session_returns (w : World) :
  consistent w -> fst (leave_session w) = Returns tt.
Proof.
  open_world w. open_consistent. exec.
  destruct (truthy p && truthy d); cbn; [ | reflexivity].
  now destruct hk.
Qed.

(** With both names set, leaving sends the request and unhooks; the
    identity and the netnode are untouched. *)
Lemma leave_session_bound (w : World) :
  consistent w ->
  truthy (_project (core w)) && truthy (_database (core w)) = true ->
  let w1 := snd (leave_session w) in
  sent_packets w1 = sent_packets w ++ [LeaveSession (user_name w)]
  /\ any_hooked w1 = false
  /\ _hooked (core w1) = false
  /\ identity w1 = identity w
  /\ netnode w1 = netnode w.
Proof.
  open_world w. open_consistent. intros Ht. exec. rewrite Ht.
  now destruct hk.
Qed.

(** What the transport sent of a leave, and what a save leaves alone. *)
Lemma leave_session_dispatched (w : World) :
  consistent w ->
  truthy (_project (core w)) && truthy (_database (core w)) = true ->
  dispatched (snd (leave_session w))
  = (if connected w then dispatched w ++ [LeaveSession (user_name w)]
     else dispatched w)
  /\ awaiting (snd (leave_session w)) = awaiting w.
Proof.
  open_world w. open_consistent. intros Ht. exec. rewrite Ht.
  now destruct hk, k.
Qed.

Lemma save_netnode_dispatched (w : World) :
  dispatched (snd (save_netnode w)) = dispatched w
  /\ awaiting (snd (save_netnode w)) = awaiting w.
Proof. rewrite save_netnode_frame. now destruct w. Qed.

(** [closebase] never reaches its [return 0]: assigning [None] through the
    [project] setter faults in the assertion, after the leave and the save. *)
Lemma closebase_raises (w : World) :
  consistent w ->
  closebase w
  = (Raises TypeError,
     with_core (with_project None)
       (snd (save_netnode (snd (leave_session w))))).
Proof.
  intros Hw. apply leave_session_returns in Hw.
  pose proof (save_netnode_returns (snd (leave_session w))) as Hs.
  unfold closebase. unfold bind at 1.
  destruct (leave_session w) as [o1 w1]. cbn [fst snd] in *. subst o1.
  unfold bind at 1.
  destruct (save_netnode w1) as [o2 w2]. cbn [fst snd] in *. subst o2.
  now destruct w2 as [[] ? ? ? ? ? ? ? ?].
Qed.

Lemma save_netnode_core (w : World) : core (snd (save_netnode w)) = core w.
Proof. rewrite save_netnode_frame. now destruct w. Qed.

Lemma save_netnode_sent (w : World) :
  sent_packets (snd (save_netnode w)) = sent_packets w.
Proof. rewrite save_netnode_frame. now destruct w. Qed.

Lemma identity_loaded (w : World) (p d : PyStr) (t : Z) :
  identity
    (with_core (fun c => with_tick t (with_database d (with_project p c))) w)
  = (p, d, t).
Proof. now destruct w as [[] ? ? ? ? ? ? ? ?]. Qed.

(** *** The reply handler *)

Lemma listed_true (d : string) (names : list string) :
  In d names -> existsb (fun name => eq_str name (Some d)) names = true.
Proof.
  intros H. apply existsb_exists. exists d. split; [exact H | ].
  apply String.eqb_refl.
Qed.

Lemma listed_false (v : PyStr) (names : list string) :
  ~ In v (map Some names) ->
  existsb (fun name => eq_str name v) names = false.
Proof.
  intros H. apply not_true_is_false. intros E.
  apply existsb_exists in E as (name & Hn & He). apply H.
  destruct v as [d | ]; [ | discriminate].
  apply String.eqb_eq in He as ->. now apply in_map.
Qed.

(** *** A transport that stays connected *)

Lemma link_ret {A : Type} (a : A) : keeps_link (ret a).
Proof. now intros w. Qed.

Lemma link_raise {A : Type} (e : PyExc) : keeps_link (@raise A e).
Proof. now intros w. Qed.

Lemma link_bind {A B : Type} (m : M A) (k : A -> M B) :
  keeps_link m -> (forall a, keeps_link (k a)) -> keeps_link (bind m k).
Proof.
  intros Hm Hk w Hw. unfold bind. specialize (Hm w Hw).
  destruct (m w) as [[a | e] w1]; cbn in *; [ | exact Hm].
  now apply Hk.
Qed.

Lemma link_get_core : keeps_link get_core.
Proof. now intros w. Qed.

Lemma link_modify_core (f : Core -> Core) : keeps_link (modify_core f).
Proof. now intros [c n s k a un uc ea ds]. Qed.

Lemma link_hashval (key : string) : keeps_link (hashval key).
Proof. now intros w. Qed.

Lemma link_hashset (key value : string) : keeps_link (hashset key value).
Proof. now intros [c n s k a un uc ea ds]. Qed.

Lemma link_send_packet (p : Packet) : keeps_link (send_packet p).
Proof.
  intros [c n s k a un uc ea ds] [Hk Hd]. cbn in *. subst k ds.
  now split.
Qed.

Lemma link_add_callback : keeps_link add_callback.
Proof. now intros [c n s k a un uc ea ds]. Qed.

Lemma link_when (b : bool) (m : M unit) :
  keeps_link m -> keeps_link (when b m).
Proof. destruct b; [trivial | intros _; apply link_ret]. Qed.

Lemma link_assert (c : PyExc + bool) : keeps_link (py_assert c).
Proof. destruct c as [e | []]; now intros w. Qed.

Lemma link_call_hook (h : HookAttr) (on : bool) :
  keeps_link (call_hook h on).
Proof.
  apply link_bind; [apply link_get_core | intros c].
  destruct (hook_of h c); [apply link_modify_core | apply link_raise].
Qed.

Create HintDb py_link.

#[local] Hint Resolve link_ret link_raise link_get_core link_modify_core
  link_hashval link_hashset link_send_packet link_add_callback link_when
  link_assert link_call_hook : py_link.

Ltac link :=
  first [ solve [auto with py_link]
        | apply link_bind; [link | intros ?; link]
        | idtac ].

Lemma link_save_netnode : keeps_link save_netnode.
Proof. unfold save_netnode. link. Qed.

Lemma link_load_netnode : keeps_link load_netnode.
Proof.
  unfold load_netnode. link. destruct (int_of_str _); auto with py_link.
Qed.

#[local] Hint Resolve link_save_netnode link_load_netnode : py_link.

Lemma link_project_setter (v : PyStr) : keeps_link (project_setter v).
Proof. unfold project_setter. link. Qed.

Lemma link_database_setter (v : PyStr) : keeps_link (database_setter v).
Proof. unfold database_setter. link. Qed.

Lemma link_tick_setter (t : Z) : keeps_link (tick_setter t).
Proof. unfold tick_setter. link. Qed.

Lemma link_hook_all : keeps_link hook_all.
Proof.
  unfold hook_all. apply link_bind; [apply link_get_core | intros c].
  destruct (_hooked c); link.
Qed.

Lemma link_unhook_all : keeps_link unhook_all.
Proof.
  unfold unhook_all. apply link_bind; [apply link_get_core | intros c].
  destruct (negb (_hooked c)); link.
Qed.

#[local] Hint Resolve link_project_setter link_database_setter
  link_tick_setter link_hook_all link_unhook_all : py_link.

Lemma link_join_session : keeps_link join_session.
Proof.
  unfold join_session. apply link_bind; [apply link_get_core | intros c].
  destruct (truthy (_project c) && truthy (_database c)); link.
Qed.

Lemma link_leave_session : keeps_link leave_session.
Proof.
  unfold leave_session. apply link_bind; [apply link_get_core | intros c].
  destruct (truthy (_project c) && truthy (_database c));
    [ | apply link_ret].
  intros w.
  apply (link_bind (send_packet (LeaveSession (user_name w)))
           (fun _ => unhook_all)); auto with py_link.
Qed.

Lemma link_databases_listed (names : list string) :
  keeps_link (databases_listed names).
Proof.
  unfold databases_listed.
  apply link_bind; [apply link_get_core | intros c].
  destruct (existsb _ names); [ | apply link_ret].
  intros w.
  apply (link_bind get_core
           (fun c =>
              bind
                (send_packet
                   (JoinSession (_project c) (_database c) (_tick c)
                      (user_name w) (user_color w) (screen_ea w)))
                (fun _ => hook_all))).
  - apply link_get_core.
  - intros c'. link.
Qed.

#[local] Hint Resolve link_join_session link_leave_session
  link_databases_listed : py_link.

Lemma link_ready_to_run : keeps_link ready_to_run.
Proof. unfold ready_to_run. link. Qed.

Lemma link_closebase : keeps_link closebase.
Proof. unfold closebase. link. Qed.

Lemma link_uninstall : keeps_link _uninstall.
Proof. unfold _uninstall. link. Qed.

Lemma link_step (w : World) (e : Event) :
  e <> Network false -> link_up w -> link_up (step w e).
Proof.
  intros He Hw. destruct e; cbn [step].
  - destruct (is_hooked _); [now apply link_ready_to_run | exact Hw].
  - destruct (is_hooked _); [now apply link_closebase | exact Hw].
  - destruct (awaiting w) eqn:E; [exact Hw | ].
    apply link_databases_listed. now destruct w.
  - now apply link_project_setter.
  - now apply link_database_setter.
  - now apply link_tick_setter.
  - destruct up; [ | congruence]. destruct w, Hw. now split.
  - now apply link_uninstall.
Qed.

Lemma link_run (trace : list Event) :
  forall w,
    Forall (fun e => e <> Network false) trace ->
    link_up w -> link_up (run w trace).
Proof.
  induction trace as [ | e trace IH]; intros w Ht Hw; [exact Hw | ].
  inversion Ht as [ | ? ? He Ht']; subst. cbn.
  apply IH; [exact Ht' | now apply link_step].
Qed.

Lemma link_boot (node : gmap string string) (name : string) (color ea : Z) :
  link_up (boot node true name color ea).
Proof. now split. Qed.

Lemma link_up_joined (w : World) : link_up w -> joined w = requested w.
Proof. intros [_ H]. unfold joined, requested. now rewrite H. Qed.

Lemma session_state_joined (w : World) :
  session_state w = Joined <-> joined w = true.
Proof.
  unfold session_state.
  destruct (joined w), (awaiting w); split; congruence.
Qed.

Lemma consistent_hooks (w : World) :
  consistent w ->
  all_hooked w = _hooked (core w) /\ any_hooked w = _hooked (core w).
Proof.
  unfold consistent, all_hooked, any_hooked. intros [-> _].
  now destruct (_hooked (core w)).
Qed.

Lemma reachable_joined_world : reachable joined_world.
Proof.
  exists bound_node, true, "analyst"%string, 255, 4096,
    [ReadyToRun; DatabasesReply ["fw.idb"; "other.idb"]]%string.
  reflexivity.
Defined.

(** * The claims *)

(** ** C1: hooks and session state *)




(** ** C2: closing the document while joined *)




(** ** C3: saving, then loading *)

(** C3, as stated, fails: a tick of 0 is not written by the save, and the
    load that follows returns the tick that the netnode already held. *)
Lemma C3_zero_tick_loads_stored_tick :
  let w :=
    run bound_world
      [SetProject (Some "alpha"%string); SetDatabase (Some "fw.idb"%string)] in
  identity w = (Some "alpha"%string, Some "fw.idb"%string, 0)
  /\ fst (save_netnode w) = Returns tt
  /\ fst (load_netnode (snd (save_netnode w))) = Returns tt
  /\ identity (snd (load_netnode (snd (save_netnode w))))
     = (Some "alpha"%string, Some "fw.idb"%string, 7)
  /\ identity (snd (load_netnode (snd (save_netnode w)))) <> identity w.
Proof. vm_compute. repeat split; congruence. Qed.

(** C3, amended: for every identity whose project and database are
    non-empty strings without [..], saving and then loading succeeds and
    yields the identical triple when the tick is non-zero or the netnode
    holds no tick yet; a tick of 0 is not written, and when the tick entry
    the netnode already holds is one that [int] accepts (none, or an empty
    one, counting as ["0"]), the load succeeds and yields the same project
    and database with the integer of that entry. *)
Theorem C3_save_then_load (w : World) (p d : string) :
  _project (core w) = Some p -> p <> ""%string -> str_in ".." p = false ->
  _database (core w) = Some d -> d <> ""%string -> str_in ".." d = false ->
  fst (save_netnode w) = Returns tt
  /\ (_tick (core w) <> 0 \/ netnode w !! "tick"%string = None ->
      fst (load_netnode (snd (save_netnode w))) = Returns tt
      /\ identity (snd (load_netnode (snd (save_netnode w)))) = identity w)
  /\ (forall stored : Z,
        _tick (core w) = 0 ->
        int_of_str (or_str (netnode w !! "tick"%string) "0") = Some stored ->
        fst (load_netnode (snd (save_netnode w))) = Returns tt
        /\ identity (snd (load_netnode (snd (save_netnode w))))
           = (Some p, Some d, stored)).
Proof.
  intros Hp Hp0 Hp1 Hd Hd0 Hd1.
  assert (forall t : Z,
             int_of_str
               (or_str (netnode (snd (save_netnode w)) !! "tick"%string) "0")
             = Some t ->
             fst (load_netnode (snd (save_netnode w))) = Returns tt
             /\ identity (snd (load_netnode (snd (save_netnode w))))
                = (Some p, Some d, t)) as Hload.
  { intros t Ht.
    rewrite (load_netnode_ok (snd (save_netnode w)) p d t); try assumption.
    - cbn [fst snd]. now rewrite identity_loaded.
    - now rewrite save_netnode_project, Hp, truthy_Some.
    - now rewrite save_netnode_database, Hd, truthy_Some. }
  split; [apply save_netnode_returns | ]. split.
  - intros Ht. unfold identity at 2. rewrite Hp, Hd.
    apply Hload. now apply saved_tick_parses.
  - intros stored H0 Hs. apply Hload.
    now rewrite save_netnode_tick, H0.
Qed.

Lemma C3_save_then_load_witness :
  fst (save_netnode joined_world) = Returns tt
  /\ (_tick (core joined_world) <> 0
      \/ netnode joined_world !! "tick"%string = None ->
      fst (load_netnode (snd (save_netnode joined_world))) = Returns tt
      /\ identity (snd (load_netnode (snd (save_netnode joined_world))))
         = identity joined_world)
  /\ (forall stored : Z,
        _tick (core joined_world) = 0 ->
        int_of_str (or_str (netnode joined_world !! "tick"%string) "0")
        = Some stored ->
        fst (load_netnode (snd (save_netnode joined_world))) = Returns tt
        /\ identity (snd (load_netnode (snd (save_netnode joined_world))))
           = (Some "alpha"%string, Some "fw.idb"%string, stored)).
Proof.
  apply (C3_save_then_load joined_world "alpha" "fw.idb").
  - reflexivity.
  - discriminate.
  - reflexivity.
  - reflexivity.
  - discriminate.
  - reflexivity.
Defined.

(** ** C4: loading a stored identity *)

(** C4: the code departs from the claim when the netnode holds no project
    (or an empty one): the containment assertion is evaluated on [None] and
    faults with a [TypeError], whatever the database entry is, so the load
    neither succeeds nor reports the failed assertion. *)
Theorem C4_load_faults_without_project (w : World) :
  or_None (netnode w !! "project"%string) = None ->
  fst (load_netnode w) = Raises TypeError
  /\ fst (load_netnode w) <> Returns tt
  /\ fst (load_netnode w) <> Raises AssertionError
  /\ identity (snd (load_netnode w))
     = (None, _database (core w), _tick (core w)).
Proof.
  intros H. rewrite (load_netnode_no_project w H). cbn [fst snd].
  repeat split; try discriminate. now destruct w as [[] ? ? ? ? ? ? ? ?].
Qed.

Lemma C4_load_faults_witness :
  fst (load_netnode fresh_world) = Raises TypeError
  /\ fst (load_netnode fresh_world) <> Returns tt
  /\ fst (load_netnode fresh_world) <> Raises AssertionError
  /\ identity (snd (load_netnode fresh_world))
     = (None, _database (core fresh_world), _tick (core fresh_world)).
Proof.
  apply (C4_load_faults_without_project fresh_world). reflexivity.
Defined.

(** ** C5: the database is listed *)



(** ** C6: the database is not listed *)

(** C6: when no name of the reply equals the bound database (exact,
    case-sensitive string equality), the handler returns without touching
    anything: no packet is sent, no hook changes, and a session that was
    waiting for this one reply is idle again. *)
Theorem C6_unlisted_database_aborts (w : World) (names : list string) :
  ~ In (_database (core w)) (map Some names) ->
  databases_listed names w = (Returns tt, w)
  /\ (awaiting w = 1%nat -> session_state w = AwaitingDatabaseList ->
      let w' := step w (DatabasesReply names) in
      sent_packets w' = sent_packets w
      /\ core w' = core w
      /\ netnode w' = netnode w
      /\ any_hooked w' = any_hooked w
      /\ session_state w' = Idle).
Proof.
  intros H. apply listed_false in H.
  assert (forall v : World,
             _database (core v) = _database (core w) ->
             databases_listed names v = (Returns tt, v)) as Hv.
  { intros v E. unfold databases_listed, bind, get_core.
    now rewrite E, H. }
  split; [now apply Hv | ].
  intros Ha Hs w'. subst w'. cbn [step]. rewrite Ha.
  rewrite Hv by now destruct w as [[] ? ? ? ? ? ? ? ?].
  cbn [snd]. unfold session_state in *.
  destruct w as [c n s k a un uc ea ds]. cbn in *. subst a.
  unfold joined in *. cbn in *.
  now destruct (fold_left joined_after ds false).
Qed.

Lemma C6_unlisted_database_witness :
  databases_listed ["FW.idb"; "other.idb"]%string
    (step bound_world ReadyToRun)
  = (Returns tt, step bound_world ReadyToRun)
  /\ (awaiting (step bound_world ReadyToRun) = 1%nat ->
      session_state (step bound_world ReadyToRun) = AwaitingDatabaseList ->
      let w' :=
        step (step bound_world ReadyToRun)
          (DatabasesReply ["FW.idb"; "other.idb"]%string) in
      sent_packets w' = sent_packets (step bound_world ReadyToRun)
      /\ core w' = core (step bound_world ReadyToRun)
      /\ netnode w' = netnode (step bound_world ReadyToRun)
      /\ any_hooked w' = any_hooked (step bound_world ReadyToRun)
      /\ session_state w' = Idle).
Proof.
  apply (C6_unlisted_database_aborts (step bound_world ReadyToRun)).
  vm_compute. intros [H | [H | []]]; discriminate.
Defined.

(** ** C7: a reply that arrives after the document was closed *)

(** C7: the code departs from the claim. The close handler faults while it
    assigns the project, before the database is reset, so the database is
    still bound when a late reply arrives; a reply that lists it makes the
    handler send a join request (with no project) and hook every user-event
    hook. *)
Theorem C7_reply_after_close_joins_and_hooks :
  let closed := run bound_world [ReadyToRun; CloseBase] in
  let w := step closed (DatabasesReply ["fw.idb"]%string) in
  fst (closebase (step bound_world ReadyToRun)) = Raises TypeError
  /\ identity closed = (None, Some "fw.idb"%string, 7)
  /\ any_hooked closed = false
  /\ sent_packets w
     = sent_packets closed
       ++ [JoinSession None (Some "fw.idb"%string) 7 "analyst" 255 4096]
  /\ all_hooked w = true
  /\ session_state w = Joined.
Proof. vm_compute. repeat split; reflexivity. Qed.

(** ** C9: saving never removes a key *)

(** C9: every key stored before a save is still stored after it; the entry
    of a field that is absent or empty (project, database) or zero (tick)
    at save time keeps its previous value; and saving a cleared identity
    leaves the netnode as it was. *)
Theorem C9_save_never_removes_keys (w : World) :
  (forall (key value : string),
      netnode w !! key = Some value ->
      is_Some (netnode (snd (save_netnode w)) !! key))
  /\ (truthy (_project (core w)) = false ->
      netnode (snd (save_netnode w)) !! "project"%string
      = netnode w !! "project"%string)
  /\ (truthy (_database (core w)) = false ->
      netnode (snd (save_netnode w)) !! "database"%string
      = netnode w !! "database"%string)
  /\ (_tick (core w) = 0 ->
      netnode (snd (save_netnode w)) !! "tick"%string
      = netnode w !! "tick"%string)
  /\ (identity w = (None, None, 0) ->
      netnode (snd (save_netnode w)) = netnode w).
Proof.
  repeat split.
  - intros key value Hk.
    destruct (decide (key = "project"%string)) as [-> | K1].
    { rewrite save_netnode_project. destruct (truthy _); eauto. }
    destruct (decide (key = "database"%string)) as [-> | K2].
    { rewrite save_netnode_database. destruct (truthy _); eauto. }
    destruct (decide (key = "tick"%string)) as [-> | K3].
    { rewrite save_netnode_tick. destruct (_ =? 0); eauto. }
    rewrite save_netnode_other by assumption. eauto.
  - intros H. now rewrite save_netnode_project, H.
  - intros H. now rewrite save_netnode_database, H.
  - intros H. now rewrite save_netnode_tick, H.
  - open_world w. cbn. now intros [= -> -> ->].
Qed.

Lemma C9_save_never_removes_keys_witness :
  let w := with_core (fun _ => core fresh_world) joined_world in
  identity w = (None, None, 0)
  /\ netnode w !! "project"%string = Some "alpha"%string
  /\ netnode (snd (save_netnode w)) = netnode w.
Proof.
  cbv zeta.
  split; [reflexivity | ]. split; [reflexivity | ].
  apply (C9_save_never_removes_keys
           (with_core (fun _ => core fresh_world) joined_world)).
  reflexivity.
Defined.

(** ** C10: the setters assign before they validate *)

(** C10: assigning a value that contains [..] through the [project] or
    [database] setter raises the assertion error, and assigning [None]
    faults in the containment test itself; in both cases the field already
    holds the new value when the error is raised, and nothing is saved. *)
Theorem C10_setters_assign_before_validating (w : World) (v : string) :
  str_in ".." v = true ->
  project_setter (Some v) w
  = (Raises AssertionError, with_core (with_project (Some v)) w)
  /\ database_setter (Some v) w
     = (Raises AssertionError, with_core (with_database (Some v)) w)
  /\ project_setter None w
     = (Raises TypeError, with_core (with_project None) w)
  /\ database_setter None w
     = (Raises TypeError, with_core (with_database None) w).
Proof.
  intros Hv. open_world w. exec_netnode. now rewrite Hv.
Qed.

Lemma C10_setters_witness :
  str_in ".." "a/../b" = true
  /\ project_setter (Some "a/../b"%string) joined_world
     = (Raises AssertionError,
        with_core (with_project (Some "a/../b"%string)) joined_world)
  /\ database_setter (Some "a/../b"%string) joined_world
     = (Raises AssertionError,
        with_core (with_database (Some "a/../b"%string)) joined_world)
  /\ project_setter None joined_world
     = (Raises TypeError, with_core (with_project None) joined_world)
  /\ database_setter None joined_world
     = (Raises TypeError, with_core (with_database None) joined_world).
Proof.
  split; [reflexivity | ].
  apply (C10_setters_assign_before_validating joined_world "a/../b").
  reflexivity.
Defined.

(** ** C8: one notification, one event *)

(** C8: every callback of [IDPHooks] and [IDBHooks] hands exactly one event
    to the transport, of the kind of the notification it received, after
    the events already sent, and returns 0. *)
Theorem C8_one_notification_one_event
    (host : IDAConnect.Host) (n : IDAConnect.Notification)
    (net : IDAConnect.Network) :
  fst (IDAConnect.notify host n net) = 0
  /\ exists e : IDAConnect.Event,
       IDAConnect.sent_events (snd (IDAConnect.notify host n net))
       = IDAConnect.sent_events net ++ [e]
       /\ IDAConnect.kind_of_event e = IDAConnect.kind_of_notification n.
Proof.
  split; [now destruct n | ].
  destruct n; cbn; eexists; split; reflexivity.
Qed.

(** * Further properties of the code *)

Lemma consistent_joined_world : consistent joined_world.
Proof. vm_compute. repeat split; discriminate. Defined.

Lemma consistent_bound_world : consistent bound_world.
Proof. vm_compute. repeat split; discriminate. Defined.

(** ** Hooking and unhooking *)

(** X1: on a core whose hooks were created, [unhook_all] returns, leaves
    every user-event hook unhooked and touches nothing else; a second call
    in a row changes nothing, and on an unhooked core the call is a no-op. *)
Theorem X1_unhook_all_idempotent (w : World) :
  consistent w ->
  let w1 := snd (unhook_all w) in
  fst (unhook_all w) = Returns tt
  /\ any_hooked w1 = false
  /\ _hooked (core w1) = false
  /\ consistent w1
  /\ identity w1 = identity w
  /\ netnode w1 = netnode w
  /\ sent_packets w1 = sent_packets w
  /\ unhook_all w1 = (Returns tt, w1)
  /\ (_hooked (core w) = false -> w1 = w).
Proof.
  open_world w. open_consistent. exec.
  destruct hk; cbn; repeat split; congruence.
Qed.

Lemma X1_unhook_all_witness :
  let w1 := snd (unhook_all joined_world) in
  fst (unhook_all joined_world) = Returns tt
  /\ any_hooked w1 = false
  /\ _hooked (core w1) = false
  /\ consistent w1
  /\ identity w1 = identity joined_world
  /\ netnode w1 = netnode joined_world
  /\ sent_packets w1 = sent_packets joined_world
  /\ unhook_all w1 = (Returns tt, w1)
  /\ (_hooked (core joined_world) = false -> w1 = joined_world).
Proof.
  exact (X1_unhook_all_idempotent joined_world consistent_joined_world).
Defined.

(** X2: on a core whose hooks were created, [hook_all] returns with all
    five user-event hooks hooked and nothing else changed; a second call
    changes nothing; and hooking an unhooked core and then unhooking it
    gives back the world it started from. *)
Theorem X2_hook_all_idempotent_and_undone (w : World) :
  consistent w ->
  let w1 := snd (hook_all w) in
  fst (hook_all w) = Returns tt
  /\ all_hooked w1 = true
  /\ _hooked (core w1) = true
  /\ consistent w1
  /\ identity w1 = identity w
  /\ netnode w1 = netnode w
  /\ sent_packets w1 = sent_packets w
  /\ hook_all w1 = (Returns tt, w1)
  /\ (_hooked (core w) = false -> unhook_all w1 = (Returns tt, w)).
Proof.
  open_world w. open_consistent. exec.
  destruct hk; cbn; repeat split; congruence.
Qed.

Lemma X2_hook_all_witness :
  let w1 := snd (hook_all bound_world) in
  fst (hook_all bound_world) = Returns tt
  /\ all_hooked w1 = true
  /\ _hooked (core w1) = true
  /\ consistent w1
  /\ identity w1 = identity bound_world
  /\ netnode w1 = netnode bound_world
  /\ sent_packets w1 = sent_packets bound_world
  /\ hook_all w1 = (Returns tt, w1)
  /\ (_hooked (core bound_world) = false ->
      unhook_all w1 = (Returns tt, bound_world)).
Proof.
  exact (X2_hook_all_idempotent_and_undone bound_world consistent_bound_world).
Defined.

(** X3: before [_install] has created the hook objects, [hook_all] raises
    an [AttributeError] on the first of them and leaves the world, the flag
    included, as it was; after [_install], from any world whose flag is
    down, it succeeds and hooks all five. *)
Theorem X3_hook_all_needs_install (w : World) :
  _hooked (core w) = false ->
  (_idb_hooks (core w) = None -> hook_all w = (Raises AttributeError, w))
  /\ fst (_install w) = Returns true
  /\ fst (hook_all (snd (_install w))) = Returns tt
  /\ all_hooked (snd (hook_all (snd (_install w)))) = true
  /\ installed (snd (hook_all (snd (_install w)))) = true.
Proof.
  open_world w. cbn. intros ->. split.
  - intros ->. reflexivity.
  - repeat split.
Qed.

Lemma X3_hook_all_needs_install_witness :
  (_idb_hooks (core (mkWorld init_core ∅ [] true 0%nat "analyst" 255 4096 []))
   = None ->
   hook_all (mkWorld init_core ∅ [] true 0%nat "analyst" 255 4096 [])
   = (Raises AttributeError,
      mkWorld init_core ∅ [] true 0%nat "analyst" 255 4096 []))
  /\ fst (_install (mkWorld init_core ∅ [] true 0%nat "analyst" 255 4096 []))
     = Returns true
  /\ fst (hook_all fresh_world) = Returns tt
  /\ all_hooked (snd (hook_all fresh_world)) = true
  /\ installed (snd (hook_all fresh_world)) = true.
Proof.
  exact (X3_hook_all_needs_install
           (mkWorld init_core ∅ [] true 0%nat "analyst" 255 4096 []) eq_refl).
Defined.

(** X4: on an installed core, [_uninstall] returns [True] with the two
    core hooks and every user-event hook unhooked; it sends no packet and
    leaves the identity and the netnode alone. Before [_install] it raises
    an [AttributeError] and changes nothing. *)
Theorem X4_uninstall_unhooks_everything (w : World) :
  (consistent w ->
   let w1 := snd (_uninstall w) in
   fst (_uninstall w) = Returns true
   /\ any_hooked w1 = false
   /\ _hooked (core w1) = false
   /\ _ui_hooks_core (core w1) = Some false
   /\ _idb_hooks_core (core w1) = Some false
   /\ sent_packets w1 = sent_packets w
   /\ identity w1 = identity w
   /\ netnode w1 = netnode w)
  /\ (_idb_hooks_core (core w) = None ->
      _uninstall w = (Raises AttributeError, w)).
Proof.
  open_world w. split.
  - open_consistent. exec.
    destruct c2 as [c2 | ]; [ | congruence].
    destruct c1 as [c1 | ]; [ | congruence]. cbn.
    destruct hk; cbn; repeat split.
  - cbn. intros ->. reflexivity.
Qed.

Lemma X4_uninstall_witness :
  let w1 := snd (_uninstall joined_world) in
  fst (_uninstall joined_world) = Returns true
  /\ any_hooked w1 = false
  /\ _hooked (core w1) = false
  /\ _ui_hooks_core (core w1) = Some false
  /\ _idb_hooks_core (core w1) = Some false
  /\ sent_packets w1 = sent_packets joined_world
  /\ identity w1 = identity joined_world
  /\ netnode w1 = netnode joined_world.
Proof.
  exact (proj1 (X4_uninstall_unhooks_everything joined_world)
           consistent_joined_world).
Defined.

(** ** Joining and leaving *)

(** X5: [join_session] does nothing at all while the project or the
    database is unset or empty; otherwise it hands exactly one packet to the
    transport, the database query for the project, registers the reply
    callback only if the transport returned a deferred, and leaves the core
    and the netnode alone. *)
Theorem X5_join_session_query (w : World) :
  (truthy (_project (core w)) && truthy (_database (core w)) = false ->
   join_session w = (Returns tt, w))
  /\ (truthy (_project (core w)) && truthy (_database (core w)) = true ->
      let w1 := snd (join_session w) in
      fst (join_session w) = Returns tt
      /\ sent_packets w1
         = sent_packets w ++ [ListDatabasesQuery (_project (core w))]
      /\ awaiting w1 = (if connected w then S (awaiting w) else awaiting w)
      /\ core w1 = core w
      /\ netnode w1 = netnode w).
Proof.
  destruct w as [c n s k a un uc ea ds].
  unfold join_session, bind, get_core, send_packet, when, add_callback, ret.
  cbn. split; intros ->; [reflexivity | ].
  destruct k; repeat split.
Qed.

Lemma X5_join_session_witness :
  let w := step bound_world ReadyToRun in
  let w1 := snd (join_session w) in
  fst (join_session w) = Returns tt
  /\ sent_packets w1
     = sent_packets w ++ [ListDatabasesQuery (_project (core w))]
  /\ awaiting w1 = (if connected w then S (awaiting w) else awaiting w)
  /\ core w1 = core w
  /\ netnode w1 = netnode w.
Proof.
  exact (proj2 (X5_join_session_query (step bound_world ReadyToRun)) eq_refl).
Defined.

(** X6: when the project or the database is unset or empty, closing the
    document sends no leave request and leaves the user-event hooks as they
    are, hooked ones included: the leave and the unhooking are both behind
    the test on the two names. *)
Theorem X6_close_without_names_keeps_hooks (w : World) :
  consistent w ->
  truthy (_project (core w)) && truthy (_database (core w)) = false ->
  leave_session w = (Returns tt, w)
  /\ sent_packets (snd (closebase w)) = sent_packets w
  /\ all_hooked (snd (closebase w)) = all_hooked w
  /\ _hooked (core (snd (closebase w))) = _hooked (core w).
Proof.
  intros Hc Ht.
  assert (leave_session w = (Returns tt, w)) as Hl.
  { unfold leave_session, bind, get_core. now rewrite Ht. }
  split; [exact Hl | ].
  rewrite (closebase_raises w Hc), Hl. cbn [snd].
  assert (forall v : World,
             sent_packets (with_core (with_project None) v) = sent_packets v
             /\ all_hooked (with_core (with_project None) v) = all_hooked v
             /\ _hooked (core (with_core (with_project None) v))
                = _hooked (core v))
    as F by now intros [[] ? ? ? ? ? ? ? ?].
  destruct (F (snd (save_netnode w))) as (-> & -> & ->).
  unfold all_hooked. now rewrite save_netnode_sent, save_netnode_core.
Qed.

Lemma X6_close_without_names_witness :
  let w := step joined_world (SetProject (Some ""%string)) in
  all_hooked w = true
  /\ leave_session w = (Returns tt, w)
  /\ sent_packets (snd (closebase w)) = sent_packets w
  /\ all_hooked (snd (closebase w)) = all_hooked w
  /\ _hooked (core (snd (closebase w))) = _hooked (core w).
Proof.
  cbv zeta. split; [reflexivity | ].
  apply (X6_close_without_names_keeps_hooks
           (step joined_world (SetProject (Some ""%string)))).
  - vm_compute. repeat split; discriminate.
  - reflexivity.
Defined.

(** X7: a reply that lists the database while the hooks are already hooked
    sends one more join request and changes nothing else: the handler has no
    guard against joining twice. *)
Theorem X7_second_reply_joins_again (w : World) (db : string)
    (names : list string) :
  consistent w ->
  _hooked (core w) = true ->
  _database (core w) = Some db ->
  In db names ->
  let request :=
    JoinSession (_project (core w)) (Some db) (_tick (core w))
      (user_name w) (user_color w) (screen_ea w) in
  databases_listed names w
  = (Returns tt,
     with_dispatched
       (fun ds => if connected w then ds ++ [request] else ds)
       (with_sent (fun s => s ++ [request]) w)).
Proof.
  open_world w. open_consistent. cbn. intros -> -> Hin. exec.
  pose proof (listed_true db names Hin) as Hl. cbn in Hl. now rewrite Hl.
Qed.

Lemma X7_second_reply_witness :
  let request :=
    JoinSession (_project (core joined_world)) (Some "fw.idb"%string)
      (_tick (core joined_world)) (user_name joined_world)
      (user_color joined_world) (screen_ea joined_world) in
  databases_listed ["fw.idb"]%string joined_world
  = (Returns tt,
     with_dispatched
       (fun ds => if connected joined_world then ds ++ [request] else ds)
       (with_sent (fun s => s ++ [request]) joined_world)).
Proof.
  apply (X7_second_reply_joins_again joined_world "fw.idb").
  - exact consistent_joined_world.
  - reflexivity.
  - reflexivity.
  - left. reflexivity.
Defined.

(** ** The setters *)

(** X8: the [tick] setter never raises. It stores the new tick in the
    instance and, when the tick is not zero, writes its decimal text to the
    netnode, which [int] reads back as the same number; a tick of zero
    leaves the stored tick as it was. The stored project and database are
    the ones a save of the instance writes. *)
Theorem X8_tick_setter_persists (w : World) (t : Z) :
  let w1 := snd (tick_setter t w) in
  fst (tick_setter t w) = Returns tt
  /\ identity w1 = (_project (core w), _database (core w), t)
  /\ netnode w1 !! "tick"%string
     = (if t =? 0 then netnode w !! "tick"%string else Some (str_int t))
  /\ (t <> 0 ->
      int_of_str (or_str (netnode w1 !! "tick"%string) "0") = Some t)
  /\ control w1 = control w
  /\ sent_packets w1 = sent_packets w.
Proof.
  assert (tick_setter t w = save_netnode (with_core (with_tick t) w)) as ->
    by reflexivity.
  set (v := with_core (with_tick t) w).
  assert (_tick (core v) = t /\ netnode v = netnode w
          /\ sent_packets v = sent_packets w /\ control v = control w
          /\ identity v = (_project (core w), _database (core w), t))
    as (Ht & Hn & Hs & Hc & Hi) by now destruct w as [[] ? ? ? ? ? ? ? ?].
  cbv zeta. split; [apply save_netnode_returns | ].
  split; [unfold identity in *; now rewrite save_netnode_core | ].
  split; [now rewrite save_netnode_tick, Ht, Hn | ].
  split.
  - intros H0. rewrite <- Ht. apply saved_tick_parses. left. now rewrite Ht.
  - split; [now rewrite preserves_save_netnode | ].
    now rewrite save_netnode_sent.
Qed.

(** X9: assigning a non-empty name without [..] through the [project] or
    the [database] setter succeeds, stores the name in the instance and
    writes it to the netnode at once. *)
Theorem X9_setters_persist_valid_names (w : World) (v : string) :
  v <> ""%string ->
  str_in ".." v = false ->
  (fst (project_setter (Some v) w) = Returns tt
   /\ _project (core (snd (project_setter (Some v) w))) = Some v
   /\ netnode (snd (project_setter (Some v) w)) !! "project"%string = Some v)
  /\ (fst (database_setter (Some v) w) = Returns tt
      /\ _database (core (snd (database_setter (Some v) w))) = Some v
      /\ netnode (snd (database_setter (Some v) w)) !! "database"%string
         = Some v).
Proof.
  intros Hv0 Hv1.
  assert (project_setter (Some v) w
          = save_netnode (with_core (with_project (Some v)) w)) as ->.
  { destruct w as [[] ? ? ? ? ? ? ? ?].
    unfold project_setter, bind, modify_core, get_core, py_assert. cbn.
    now rewrite Hv1. }
  assert (database_setter (Some v) w
          = save_netnode (with_core (with_database (Some v)) w)) as ->.
  { destruct w as [[] ? ? ? ? ? ? ? ?].
    unfold database_setter, bind, modify_core, get_core, py_assert. cbn.
    now rewrite Hv1. }
  assert (_project (core (with_core (with_project (Some v)) w)) = Some v
          /\ _database (core (with_core (with_database (Some v)) w)) = Some v)
    as [Hp Hd] by now destruct w as [[] ? ? ? ? ? ? ? ?].
  rewrite !save_netnode_returns, !save_netnode_core.
  rewrite save_netnode_project, save_netnode_database, Hp, Hd.
  now rewrite (truthy_Some v Hv0).
Qed.

Lemma X9_setters_persist_witness :
  (fst (project_setter (Some "beta"%string) fresh_world) = Returns tt
   /\ _project (core (snd (project_setter (Some "beta"%string) fresh_world)))
      = Some "beta"%string
   /\ netnode (snd (project_setter (Some "beta"%string) fresh_world))
        !! "project"%string
      = Some "beta"%string)
  /\ (fst (database_setter (Some "beta"%string) fresh_world) = Returns tt
      /\ _database
           (core (snd (database_setter (Some "beta"%string) fresh_world)))
         = Some "beta"%string
      /\ netnode (snd (database_setter (Some "beta"%string) fresh_world))
           !! "database"%string
         = Some "beta"%string).
Proof.
  apply (X9_setters_persist_valid_names fresh_world "beta").
  - discriminate.
  - reflexivity.
Defined.

Lemma X8_tick_setter_witness :
  let w1 := snd (tick_setter 42 bound_world) in
  42 <> 0
  /\ fst (tick_setter 42 bound_world) = Returns tt
  /\ identity w1
     = (_project (core bound_world), _database (core bound_world), 42)
  /\ netnode w1 !! "tick"%string
     = (if 42 =? 0 then netnode bound_world !! "tick"%string
        else Some (str_int 42))
  /\ (42 <> 0 ->
      int_of_str (or_str (netnode w1 !! "tick"%string) "0") = Some 42)
  /\ control w1 = control bound_world
  /\ sent_packets w1 = sent_packets bound_world.
Proof.
  cbv zeta. split; [discriminate | ].
  exact (X8_tick_setter_persists bound_world 42).
Defined.

(** ** Saving and loading *)

(** X10: saving is idempotent: a second [save_netnode] right after the
    first leaves the world exactly as the first left it. *)
Theorem X10_save_netnode_idempotent (w : World) :
  save_netnode (snd (save_netnode w)) = (Returns tt, snd (save_netnode w)).
Proof.
  set (w1 := snd (save_netnode w)).
  rewrite (surjective_pairing (save_netnode w1)), save_netnode_returns.
  f_equal. rewrite (save_netnode_frame w1).
  assert (netnode (snd (save_netnode w1)) = netnode w1) as ->.
  { apply map_eq. intros key. subst w1.
    destruct (decide (key = "project"%string)) as [-> | K1].
    { rewrite !save_netnode_project, save_netnode_core.
      now destruct (truthy _). }
    destruct (decide (key = "database"%string)) as [-> | K2].
    { rewrite !save_netnode_database, save_netnode_core.
      now destruct (truthy _). }
    destruct (decide (key = "tick"%string)) as [-> | K3].
    { rewrite !save_netnode_tick, save_netnode_core.
      now destruct (_ =? 0). }
    now rewrite (save_netnode_other (snd (save_netnode w))). }
  now destruct w1.
Qed.

(** X11: whatever the netnode holds and however it ends, [load_netnode]
    only reads the netnode: the stored entries, the packets sent, the
    awaited replies and every hook are as before. *)
Theorem X11_load_netnode_reads_only (w : World) :
  netnode (snd (load_netnode w)) = netnode w
  /\ sent_packets (snd (load_netnode w)) = sent_packets w
  /\ awaiting (snd (load_netnode w)) = awaiting w
  /\ control (snd (load_netnode w)) = control w.
Proof.
  split; [ | split; [ | split; [ | apply preserves_load_netnode]]].
  all: open_world w; exec_netnode.
  all: destruct (or_None (n !! "project"%string)) as [p' | ]; cbn;
    [ | reflexivity].
  all: destruct (str_in ".." p'); cbn; [reflexivity | ].
  all: destruct (or_None (n !! "database"%string)) as [d' | ]; cbn;
    [ | reflexivity].
  all: destruct (str_in ".." d'); cbn; [reflexivity | ].
  all: now destruct (int_of_str _).
Qed.

(** X12: a stored project, or a stored database next to an acceptable
    project, that contains [..] makes [load_netnode] fail its assertion; the
    field then holds the stored value as it is, and the fields after it are
    not loaded. *)
Theorem X12_load_rejects_dotdot (w : World) (p d : string) :
  (netnode w !! "project"%string = Some p -> str_in ".." p = true ->
   load_netnode w
   = (Raises AssertionError, with_core (with_project (Some p)) w))
  /\ (netnode w !! "project"%string = Some p -> p <> ""%string ->
      str_in ".." p = false ->
      netnode w !! "database"%string = Some d -> str_in ".." d = true ->
      load_netnode w
      = (Raises AssertionError,
         with_core
           (fun c => with_database (Some d) (with_project (Some p) c)) w)).
Proof.
  split.
  - apply load_netnode_dotdot_project.
  - apply load_netnode_dotdot_database.
Qed.

Lemma X12_load_rejects_dotdot_witness :
  let w := boot (<["project" := "a/../b"]> ∅) true "analyst" 255 4096 in
  load_netnode w
  = (Raises AssertionError, with_core (with_project (Some "a/../b"%string)) w).
Proof.
  cbv zeta.
  apply (proj1 (X12_load_rejects_dotdot
                  (boot (<["project" := "a/../b"]> ∅) true "analyst" 255 4096)
                  "a/../b" "")).
  - reflexivity.
  - reflexivity.
Defined.

(** X13: the fields are loaded one after the other, so a failure at a later
    field leaves the earlier ones overwritten: with an acceptable project
    stored, an unset or empty database faults with a [TypeError] after the
    project was assigned, and a tick that is not a decimal integer raises a
    [ValueError] after project and database were assigned. *)
Theorem X13_load_fails_after_partial_assignment (w : World) (p d : string) :
  netnode w !! "project"%string = Some p -> p <> ""%string ->
  str_in ".." p = false ->
  (or_None (netnode w !! "database"%string) = None ->
   load_netnode w
   = (Raises TypeError,
      with_core (fun c => with_database None (with_project (Some p) c)) w))
  /\ (netnode w !! "database"%string = Some d -> d <> ""%string ->
      str_in ".." d = false ->
      int_of_str (or_str (netnode w !! "tick"%string) "0") = None ->
      load_netnode w
      = (Raises ValueError,
         with_core
           (fun c => with_database (Some d) (with_project (Some p) c)) w)).
Proof.
  intros Hp Hp0 Hp1.
  destruct w as [[p' d' t' h1 h2 h3 h4 h5 c1 c2 hk tk] n s k a un uc ea ds].
  cbn in Hp |- *. split.
  - intros Hd. exec_netnode. unfold or_None in *.
    rewrite Hp, (truthy_Some p Hp0). cbn. rewrite Hp1. cbn.
    now rewrite Hd.
  - intros Hd Hd0 Hd1 Ht. exec_netnode. unfold or_None.
    rewrite Hp, (truthy_Some p Hp0). cbn. rewrite Hp1. cbn.
    rewrite Hd, (truthy_Some d Hd0). cbn. rewrite Hd1. cbn.
    now rewrite Ht.
Qed.

Lemma X13_load_partial_witness :
  let tick := String "7" (String (ascii_of_nat 31) EmptyString) in
  let w :=
    boot (<["project" := "alpha"]>
            (<["database" := "fw.idb"]> (<["tick" := tick]> ∅)))
      true "analyst" 255 4096 in
  load_netnode w
  = (Raises ValueError,
     with_core
       (fun c => with_database (Some "fw.idb"%string)
                   (with_project (Some "alpha"%string) c)) w).
Proof.
  cbv zeta.
  destruct (X13_load_fails_after_partial_assignment
              (boot (<["project" := "alpha"]>
                       (<["database" := "fw.idb"]>
                          (<["tick" :=
                               String "7"
                                 (String (ascii_of_nat 31) EmptyString)]> ∅)))
                 true "analyst" 255 4096)
              "alpha" "fw.idb") as [_ H].
  - reflexivity.
  - discriminate.
  - reflexivity.
  - apply H.
    + reflexivity.
    + discriminate.
    + reflexivity.
    + reflexivity.
Defined.

(** ** The two host signals *)

Lemma ready_to_run_bound (w : World) (p d : string) (t : Z) :
  netnode w !! "project" = Some p -> p <> "" -> str_in ".." p = false ->
  netnode w !! "database" = Some d -> d <> "" -> str_in ".." d = false ->
  int_of_str (or_str (netnode w !! "tick") "0") = Some t ->
  ready_to_run w
  = (Returns tt,
     with_awaiting (fun a => if connected w then S a else a)
       (with_dispatched
          (fun ds =>
             if connected w then ds ++ [ListDatabasesQuery (Some p)] else ds)
          (with_sent (fun s => s ++ [ListDatabasesQuery (Some p)])
             (with_core
                (fun c =>
                   with_tick t
                     (with_database (Some d) (with_project (Some p) c)))
                w)))).
Proof.
  intros Hp Hp0 Hp1 Hd Hd0 Hd1 Ht.
  unfold ready_to_run, bind at 1.
  rewrite (load_netnode_ok w p d t) by assumption.
  apply String.eqb_neq in Hp0, Hd0.
  destruct w as [[] n s k a un uc ea ds].
  unfold join_session, bind, get_core, send_packet, when, add_callback, ret.
  cbn. rewrite Hp0, Hd0. cbn. now destruct k.
Qed.

(** X14: when the host is ready, a document whose netnode holds an
    acceptable project, database and tick gets its identity loaded and
    exactly one packet sent, the database query for its project; a document
    with no project stored faults in the load, so that nothing is sent and
    the session is never joined. *)
Theorem X14_ready_to_run (w : World) (p d : string) (t : Z) :
  (or_None (netnode w !! "project"%string) = None ->
   ready_to_run w = (Raises TypeError, with_core (with_project None) w))
  /\ (netnode w !! "project"%string = Some p -> p <> ""%string ->
      str_in ".." p = false ->
      netnode w !! "database"%string = Some d -> d <> ""%string ->
      str_in ".." d = false ->
      int_of_str (or_str (netnode w !! "tick"%string) "0") = Some t ->
      let w1 := snd (ready_to_run w) in
      fst (ready_to_run w) = Returns tt
      /\ identity w1 = (Some p, Some d, t)
      /\ sent_packets w1 = sent_packets w ++ [ListDatabasesQuery (Some p)]
      /\ awaiting w1 = (if connected w then S (awaiting w) else awaiting w)
      /\ netnode w1 = netnode w
      /\ control w1 = control w).
Proof.
  split.
  - intros H. unfold ready_to_run, bind.
    now rewrite (load_netnode_no_project w H).
  - intros Hp Hp0 Hp1 Hd Hd0 Hd1 Ht w1. subst w1.
    rewrite preserves_ready_to_run.
    rewrite (ready_to_run_bound w p d t) by assumption.
    now destruct w as [[] n s k a un uc ea ds].
Qed.

Lemma X14_ready_to_run_witness :
  let w1 := snd (ready_to_run bound_world) in
  fst (ready_to_run bound_world) = Returns tt
  /\ identity w1 = (Some "alpha"%string, Some "fw.idb"%string, 7)
  /\ sent_packets w1
     = sent_packets bound_world ++ [ListDatabasesQuery (Some "alpha"%string)]
  /\ awaiting w1
     = (if connected bound_world then S (awaiting bound_world)
        else awaiting bound_world)
  /\ netnode w1 = netnode bound_world
  /\ control w1 = control bound_world.
Proof.
  destruct (X14_ready_to_run bound_world "alpha" "fw.idb" 7) as [_ H].
  apply H.
  - reflexivity.
  - discriminate.
  - reflexivity.
  - reflexivity.
  - discriminate.
  - reflexivity.
  - reflexivity.
Defined.

(** X15: on a core whose hooks were created, the close handler never
    reaches its [return 0]: after the leave and the save it faults with a
    [TypeError] while assigning the project, so the project is [None] but
    the database and the tick keep their values, and the attribute [ticks]
    is not created. *)
Theorem X15_closebase_always_faults (w : World) :
  consistent w ->
  let w1 := snd (closebase w) in
  fst (closebase w) = Raises TypeError
  /\ _project (core w1) = None
  /\ _database (core w1) = _database (core w)
  /\ _tick (core w1) = _tick (core w)
  /\ ticks (core w1) = ticks (core w).
Proof.
  intros Hc. rewrite (closebase_raises w Hc). cbn [fst snd].
  assert (forall v : World,
             _project (core (with_core (with_project None) v)) = None
             /\ _database (core (with_core (with_project None) v))
                = _database (core v)
             /\ _tick (core (with_core (with_project None) v))
                = _tick (core v)
             /\ ticks (core (with_core (with_project None) v))
                = ticks (core v))
    as F by now intros [[] ? ? ? ? ? ? ? ?].
  destruct (F (snd (save_netnode (snd (leave_session w)))))
    as (-> & -> & -> & ->).
  rewrite save_netnode_core. clear F. revert Hc.
  open_world w. open_consistent. exec.
  destruct (truthy p && truthy d); cbn; [ | now repeat split].
  now destruct hk.
Qed.

Lemma X15_closebase_witness :
  let w1 := snd (closebase joined_world) in
  fst (closebase joined_world) = Raises TypeError
  /\ _project (core w1) = None
  /\ _database (core w1) = _database (core joined_world)
  /\ _tick (core w1) = _tick (core joined_world)
  /\ ticks (core w1) = ticks (core joined_world).
Proof.
  exact (X15_closebase_always_faults joined_world consistent_joined_world).
Defined.

(** X16: a whole session. For a freshly installed core on a connected
    transport and a document whose netnode holds an acceptable project,
    database and tick: host ready, a reply listing the database, then
    document close send exactly the query, the join request with the stored
    tick and the leave request, in this order; the hooks are all hooked
    after the reply and all unhooked after the close, and the netnode still
    holds the project and the database. *)
Theorem X16_session_lifecycle
    (node : gmap string string) (name : string) (color ea : Z)
    (proj db : string) (tk0 : Z) (names : list string) :
  node !! "project"%string = Some proj -> proj <> ""%string ->
  str_in ".." proj = false ->
  node !! "database"%string = Some db -> db <> ""%string ->
  str_in ".." db = false ->
  int_of_str (or_str (node !! "tick"%string) "0") = Some tk0 ->
  In db names ->
  let w0 := boot node true name color ea in
  let w2 := run w0 [ReadyToRun; DatabasesReply names] in
  let w3 := step w2 CloseBase in
  all_hooked w2 = true
  /\ session_state w2 = Joined
  /\ sent_packets w3
     = [ListDatabasesQuery (Some proj);
        JoinSession (Some proj) (Some db) tk0 name color ea;
        LeaveSession name]
  /\ any_hooked w3 = false
  /\ session_state w3 = Idle
  /\ netnode w3 !! "project"%string = Some proj
  /\ netnode w3 !! "database"%string = Some db.
Proof.
  intros Hp Hp0 Hp1 Hd Hd0 Hd1 Ht Hin w0 w2 w3.
  assert (w2
          = mkWorld
              (mkCore (Some proj) (Some db) tk0 (Some true) (Some true)
                 (Some true) (Some true) (Some true) (Some true) (Some true)
                 true None)
              node
              [ListDatabasesQuery (Some proj);
               JoinSession (Some proj) (Some db) tk0 name color ea]
              true 0%nat name color ea
              [ListDatabasesQuery (Some proj);
               JoinSession (Some proj) (Some db) tk0 name color ea]) as E2.
  { subst w2 w0. unfold run. cbn [fold_left].
    assert (step (boot node true name color ea) ReadyToRun
            = snd (ready_to_run (boot node true name color ea))) as ->
      by reflexivity.
    rewrite (ready_to_run_bound _ proj db tk0) by assumption.
    cbn. exec.
    pose proof (listed_true db names Hin) as Hl. cbn in Hl. now rewrite Hl. }
  subst w3. rewrite E2. clear E2 w2 w0.
  split; [reflexivity | ]. split; [reflexivity | ].
  cbn [step core _idb_hooks_core is_hooked].
  match goal with
  | |- context [closebase ?v] =>
      assert (consistent v) as Hc
        by (unfold consistent; cbn; repeat split; congruence);
      assert (truthy (_project (core v)) && truthy (_database (core v))
              = true) as Hb
        by (cbn [core _project _database];
            now rewrite !truthy_Some by assumption);
      rewrite (closebase_raises v Hc);
      destruct (leave_session_bound v Hc Hb) as (Hs & Hh & Hk & Hi & Hn);
      destruct (leave_session_dispatched v Hc Hb) as (Hds & Ha1);
      set (v1 := snd (leave_session v)) in *
  end.
  cbn [snd]. unfold identity in Hi. cbn in Hs, Hn, Hds, Ha1.
  apply pair_equal_spec in Hi as [Hi Hit].
  apply pair_equal_spec in Hi as [Hip Hid].
  cbn in Hip, Hid, Hit.
  assert (forall u : World,
             netnode (with_core (with_project None) u) = netnode u
             /\ sent_packets (with_core (with_project None) u)
                = sent_packets u
             /\ any_hooked (with_core (with_project None) u) = any_hooked u
             /\ awaiting (with_core (with_project None) u) = awaiting u
             /\ dispatched (with_core (with_project None) u) = dispatched u)
    as F by now intros [[] ? ? ? ? ? ? ? ?].
  destruct (F (snd (save_netnode v1))) as (Fn & Fs & Fh & Fa & Fd).
  destruct (save_netnode_dispatched v1) as (Sd & Ha).
  repeat split.
  - now rewrite Fs, save_netnode_sent, Hs.
  - rewrite Fh. unfold any_hooked. rewrite save_netnode_core. exact Hh.
  - unfold session_state, joined.
    rewrite Fd, Sd, Hds, Fa, Ha, Ha1. reflexivity.
  - now rewrite Fn, save_netnode_project, Hip, truthy_Some.
  - now rewrite Fn, save_netnode_database, Hid, truthy_Some.
Qed.

Lemma X16_session_lifecycle_witness :
  let w2 := run bound_world [ReadyToRun; DatabasesReply ["fw.idb"]%string] in
  let w3 := step w2 CloseBase in
  all_hooked w2 = true
  /\ session_state w2 = Joined
  /\ sent_packets w3
     = [ListDatabasesQuery (Some "alpha"%string);
        JoinSession (Some "alpha"%string) (Some "fw.idb"%string) 7
          "analyst" 255 4096;
        LeaveSession "analyst"]
  /\ any_hooked w3 = false
  /\ session_state w3 = Idle
  /\ netnode w3 !! "project"%string = Some "alpha"%string
  /\ netnode w3 !! "database"%string = Some "fw.idb"%string.
Proof.
  apply (X16_session_lifecycle bound_node "analyst" 255 4096
           "alpha" "fw.idb" 7 ["fw.idb"]%string).
  - reflexivity.
  - discriminate.
  - reflexivity.
  - reflexivity.
  - discriminate.
  - reflexivity.
  - reflexivity.
  - left. reflexivity.
Defined.

(** ** The hooks of [plugin/idaconnect/core.py] *)

(** X17: a sequence of notifications yields as many events as
    notifications, appended after the events already sent, in the order of
    the notifications and each of the kind of its notification; every
    callback returns 0. *)
Theorem X17_notifications_in_order
    (host : IDAConnect.Host) (ns : list IDAConnect.Notification) :
  forall net : IDAConnect.Network,
    fst (IDAConnect.notify_all host ns net) = repeat 0 (length ns)
    /\ exists es : list IDAConnect.Event,
         IDAConnect.sent_events (snd (IDAConnect.notify_all host ns net))
         = IDAConnect.sent_events net ++ es
         /\ map IDAConnect.kind_of_event es
            = map IDAConnect.kind_of_notification ns.
Proof.
  induction ns as [ | n ns IH]; intros net.
  - split; [reflexivity | ]. exists []. split; [ | reflexivity].
    cbn. now rewrite app_nil_r.
  - cbn [IDAConnect.notify_all].
    assert (exists e : IDAConnect.Event,
               IDAConnect.notify host n net
               = (0, IDAConnect.send_event e net)
               /\ IDAConnect.kind_of_event e
                  = IDAConnect.kind_of_notification n) as (e & -> & He)
      by (destruct n; eexists; split; reflexivity).
    destruct (IH (IDAConnect.send_event e net)) as (Hr & es & Hs & Hk).
    destruct (IDAConnect.notify_all host ns (IDAConnect.send_event e net))
      as [rs net2].
    cbn [fst snd] in *. split.
    + cbn. now rewrite Hr.
    + exists (e :: es). split.
      * rewrite Hs. cbn. now rewrite <- app_assoc.
      * cbn. now rewrite He, Hk.
Qed.

(** X18: [Core.install] leaves both hook objects hooked whatever the core
    held before, [Core.uninstall] after it leaves both unhooked and can be
    repeated, and [Core.uninstall] on a core that was never installed raises
    an [AttributeError] and changes nothing. *)
Theorem X18_install_then_uninstall (c : IDAConnect.Core) :
  IDAConnect.install c = IDAConnect.mkCore (Some true) (Some true)
  /\ IDAConnect.uninstall (IDAConnect.install c)
     = (None, IDAConnect.mkCore (Some false) (Some false))
  /\ IDAConnect.uninstall (snd (IDAConnect.uninstall (IDAConnect.install c)))
     = (None, IDAConnect.mkCore (Some false) (Some false))
  /\ IDAConnect.uninstall IDAConnect.init_core
     = (Some AttributeError, IDAConnect.init_core).
Proof. repeat split. Qed.

(** ** What no transition undoes *)

Lemma history_kept_refl (w : World) : history_kept w w.
Proof. split; [trivial | exists []; now rewrite app_nil_r]. Qed.

Lemma history_kept_trans (w1 w2 w3 : World) :
  history_kept w1 w2 -> history_kept w2 w3 -> history_kept w1 w3.
Proof.
  intros [K1 [l1 S1]] [K2 [l2 S2]]. split; [auto | ].
  exists (l1 ++ l2). now rewrite S2, S1, app_assoc.
Qed.

Lemma keeps_ret {A : Type} (a : A) : keeps_history (ret a).
Proof. intros w. apply history_kept_refl. Qed.

Lemma keeps_raise {A : Type} (e : PyExc) : keeps_history (@raise A e).
Proof. intros w. apply history_kept_refl. Qed.

Lemma keeps_bind {A B : Type} (m : M A) (k : A -> M B) :
  keeps_history m -> (forall a, keeps_history (k a)) ->
  keeps_history (bind m k).
Proof.
  intros Hm Hk w. unfold bind. specialize (Hm w).
  destruct (m w) as [[a | e] w1]; cbn in *; [ | exact Hm].
  eapply history_kept_trans; [exact Hm | apply Hk].
Qed.

Lemma keeps_get_core : keeps_history get_core.
Proof. intros w. apply history_kept_refl. Qed.

Lemma keeps_modify_core (f : Core -> Core) : keeps_history (modify_core f).
Proof.
  intros [c n s k a un uc ea ds]. split; [trivial | ].
  exists []. cbn. now rewrite app_nil_r.
Qed.

Lemma keeps_hashval (key : string) : keeps_history (hashval key).
Proof. intros w. apply history_kept_refl. Qed.

Lemma keeps_hashset (key value : string) : keeps_history (hashset key value).
Proof.
  intros [c n s k a un uc ea ds]. split.
  - cbn. intros key' H. rewrite lookup_insert. now case_decide.
  - exists []. cbn. now rewrite app_nil_r.
Qed.

Lemma keeps_send_packet (p : Packet) : keeps_history (send_packet p).
Proof. intros [c n s k a un uc ea ds]. split; [trivial | now exists [p]]. Qed.

Lemma keeps_add_callback : keeps_history add_callback.
Proof.
  intros [c n s k a un uc ea ds]. split; [trivial | ].
  exists []. cbn. now rewrite app_nil_r.
Qed.

Lemma keeps_when (b : bool) (m : M unit) :
  keeps_history m -> keeps_history (when b m).
Proof. destruct b; [trivial | intros _; apply keeps_ret]. Qed.

Lemma keeps_assert (c : PyExc + bool) : keeps_history (py_assert c).
Proof. destruct c as [e | []]; intros w; apply history_kept_refl. Qed.

Lemma keeps_call_hook (h : HookAttr) (on : bool) :
  keeps_history (call_hook h on).
Proof.
  apply keeps_bind; [apply keeps_get_core | intros c].
  destruct (hook_of h c); [apply keeps_modify_core | apply keeps_raise].
Qed.

Create HintDb py_history.

#[local] Hint Resolve keeps_ret keeps_raise keeps_get_core keeps_modify_core
  keeps_hashval keeps_hashset keeps_send_packet keeps_add_callback
  keeps_when keeps_assert keeps_call_hook : py_history.

Ltac history :=
  first [ solve [auto with py_history]
        | apply keeps_bind; [history | intros ?; history]
        | idtac ].

Lemma keeps_save_netnode : keeps_history save_netnode.
Proof. unfold save_netnode. history. Qed.

Lemma keeps_load_netnode : keeps_history load_netnode.
Proof.
  unfold load_netnode. history.
  destruct (int_of_str _); auto with py_history.
Qed.

#[local] Hint Resolve keeps_save_netnode keeps_load_netnode : py_history.

Lemma keeps_project_setter (v : PyStr) : keeps_history (project_setter v).
Proof. unfold project_setter. history. Qed.

Lemma keeps_database_setter (v : PyStr) : keeps_history (database_setter v).
Proof. unfold database_setter. history. Qed.

Lemma keeps_tick_setter (t : Z) : keeps_history (tick_setter t).
Proof. unfold tick_setter. history. Qed.

Lemma keeps_hook_all : keeps_history hook_all.
Proof.
  unfold hook_all. apply keeps_bind; [apply keeps_get_core | intros c].
  destruct (_hooked c); history.
Qed.

Lemma keeps_unhook_all : keeps_history unhook_all.
Proof.
  unfold unhook_all. apply keeps_bind; [apply keeps_get_core | intros c].
  destruct (negb (_hooked c)); history.
Qed.

#[local] Hint Resolve keeps_project_setter keeps_database_setter
  keeps_tick_setter keeps_hook_all keeps_unhook_all : py_history.

Lemma keeps_join_session : keeps_history join_session.
Proof.
  unfold join_session. apply keeps_bind; [apply keeps_get_core | intros c].
  destruct (truthy (_project c) && truthy (_database c)); history.
Qed.

Lemma keeps_leave_session : keeps_history leave_session.
Proof.
  unfold leave_session. apply keeps_bind; [apply keeps_get_core | intros c].
  destruct (truthy (_project c) && truthy (_database c));
    [ | apply keeps_ret].
  intros w.
  apply (keeps_bind (send_packet (LeaveSession (user_name w)))
           (fun _ => unhook_all)); auto with py_history.
Qed.

Lemma keeps_databases_listed (names : list string) :
  keeps_history (databases_listed names).
Proof.
  unfold databases_listed.
  apply keeps_bind; [apply keeps_get_core | intros c].
  destruct (existsb _ names); [ | apply keeps_ret].
  intros w.
  apply (keeps_bind get_core
           (fun c =>
              bind
                (send_packet
                   (JoinSession (_project c) (_database c) (_tick c)
                      (user_name w) (user_color w) (screen_ea w)))
                (fun _ => hook_all))).
  - apply keeps_get_core.
  - intros c'. history.
Qed.

#[local] Hint Resolve keeps_join_session keeps_leave_session
  keeps_databases_listed : py_history.

Lemma keeps_ready_to_run : keeps_history ready_to_run.
Proof. unfold ready_to_run. history. Qed.

Lemma keeps_closebase : keeps_history closebase.
Proof. unfold closebase. history. Qed.

Lemma keeps_uninstall : keeps_history _uninstall.
Proof. unfold _uninstall. history. Qed.

Lemma history_kept_step (w : World) (e : Event) : history_kept w (step w e).
Proof.
  destruct e; cbn [step].
  - destruct (is_hooked _); [apply keeps_ready_to_run | ].
    apply history_kept_refl.
  - destruct (is_hooked _); [apply keeps_closebase | ].
    apply history_kept_refl.
  - destruct (awaiting w) eqn:E; [apply history_kept_refl | ].
    eapply history_kept_trans; [ | apply keeps_databases_listed].
    destruct w. split; [trivial | ]. exists []. cbn. now rewrite app_nil_r.
  - apply keeps_project_setter.
  - apply keeps_database_setter.
  - apply keeps_tick_setter.
  - destruct w. split; [trivial | ]. exists []. cbn. now rewrite app_nil_r.
  - apply keeps_uninstall.
Qed.

(** X19: along any sequence of events, from any world, the core never
    removes a key from the netnode and never retracts a packet: every key
    stored before is still stored, and the packets handed to the transport
    before are a prefix of those handed to it after. *)
Theorem X19_no_transition_undoes (trace : list Event) :
  forall w : World, history_kept w (run w trace).
Proof.
  induction trace as [ | e trace IH]; intros w.
  - apply history_kept_refl.
  - cbn. eapply history_kept_trans; [apply history_kept_step | apply IH].
Qed.
